(* ===== verification/_CoqProject ===== *)
-Q . S2P
Prelude.v
Mode.v
Url.v
Browser.v
Origin.v
Background.v
Popup.v
Router.v
Interplay.v
Wiring.v
Termination.v
