(* ===== verification/Prelude.v ===== *)
(** * Verification of xdebug-quick-toggle

    The program is a Chrome extension made of two scripts that share the
    browser's state and never call each other:

    - [src/background.js], the service worker.  [getModeForSite] and
      [setModeForSite] read and write [chrome.storage.local] (site key ->
      mode string, default ["off"]); [detectCookieMode] reads the
      [XDEBUG_PROFILE] and then the [XDEBUG_SESSION] cookie of a site;
      [refreshIcon] paints the stored mode at once and, independently,
      reconciles the stored mode with the cookies, writing the observed
      mode back when they differ; the listeners [chrome.tabs.onActivated]
      and [chrome.tabs.onUpdated] call it.
    - [src/popup.js], the popup.  [applyMode] removes both marker cookies,
      sets the cookie of the chosen mode, paints the icon, stores the mode
      and reloads the tab; the buttons ["off"], ["debug"], ["profile"]
      call it.

    The scripts interact only through the browser: storage, the cookie
    jar, the per-tab icon and the tabs.  Every browser call is
    asynchronous and the scripts chain them with callbacks.  The
    development models the code as it is written: a script is a tree of
    browser requests whose continuations are its callbacks
    ([Browser.prog]); the browser is a record of its state
    ([Browser.world]: storage, cookie jar keyed by host name and cookie
    name, icons, tabs, and a trace of effects); a pending request may
    resolve at any time, so the semantics is the relation [Browser.step]
    that resolves any one pending request, runs its callback and adds the
    requests the callback issues to the pool.  [Browser.run] (first come,
    first served, with fuel) and [Browser.run_sched] (an explicit choice
    of request at each step) are executable and are executions of [step]
    ([run_steps], [run_sched_steps]).

    Files, in dependency order:
    - [Prelude] (this file): the scope [xdq_scope] (JavaScript's [x || d]
      on stored strings), the hint databases [xdq] and [xdq_rw], the tactic
      [case_str], [startsWith] and the string lemmas.
    - [Mode]: the three modes, their strings, the icon-path record, with
      [EqDecision]/[Countable] instances and the string round trip.
    - [Url]: the part of the WHATWG [URL] constructor the code relies on
      ([new_URL], a browser library modelled executably), the site key
      [siteUrl_of] ([`${protocol}//${host}`]) and the cookie scope
      [cookie_host].
    - [Browser]: requests, world, [fire]/[issue]/[resolve], [step],
      schedulers, [forEach], the invariant principle [steps_invariant]
      (a Section whose hypotheses are the permutation-invariance of the
      pool and preservation by one resolution) and the frame lemmas.
    - [Origin]: the round trip of the site key through the [URL] parser:
      for every url [new_URL] accepts, [new_URL (siteUrl_of u) = Some u],
      so the cookie API, called with the site key, reads and writes the
      jar of the page's host.  Proved from character-class lemmas over all
      256 characters and what each scanner of [Url] leaves of its input.
    - [Background]: [Module Background] translates [src/background.js]
      function by function; [Detection] proves the cookie precedence;
      [Reconciliation] proves, by an inductive description of every request
      a pass can leave pending ([refresh_req]), that under every
      interleaving a finished pass heals the stored mode and never touches
      cookies, and that the FIFO run refines the abstract reconciler
      [reconcile]; [Scenarios] gives the interleaving in which the stale
      paint lands last and the IDE-key cookie that reads as "off".
    - [Popup]: [Module Popup] translates [src/popup.js]; [Transaction]
      proves the outcome of a finished transaction under every
      interleaving with a stage invariant ([tx_inv]), and that in every
      state it reaches a reload implies the mode was stored and painted
      first; [Sequential] the FIFO
      run and idempotence; [Guards] the http guard and the [TypeError] of a
      tab without url; [Scenarios] the interleavings that lose the debug
      marker or reload before the cookie is set.
    - [Router]: the two listeners reduced to a pass or to a single paint:
      healing after "complete" and after activation, the paint of the
      stored mode on "loading", the [TypeError] on a vanished tab.
    - [Interplay]: the extension as a whole.  [System.sys_step] lets the
      browser either deliver an event (tab activated, tab updated, button
      clicked), whose handler [System.dispatch] runs its synchronous code,
      or resolve any pending request; [System.sys_run] executes a plan of
      such actions.  [Extension] proves, by an inductive description of
      request trees that write only "http" keys ([http_writes]), that
      storage holds only such keys in every reachable state, so the
      unguarded "loading" paint shows "off" on other pages;
      [InterplayScenarios] exhibits the race of a pass with a popup
      transaction.  The same invariant gives the type of storage (only
      mode strings, so every paint of a stored mode has an icon).  The
      Section [Reachable] turns any property of the browser's state that
      each listener request preserves into an invariant of every reachable
      state; it gives the storage invariant.
    - [Wiring]: the popup's [forEach] over the button ids, with the
      document as a map from ids to click listeners and the [TypeError]
      of [getElementById] returning [null]; the wiring refines the
      [Popup.onClick] abstraction the system model dispatches to.
    - [Termination]: a measure on requests ([Measure.fin]: how many
      resolutions a request and everything its callbacks issue can take,
      in every world) that each [step] decreases; hence every execution is
      finite (stdpp's [sn]), bounded in length, and drained by [run].
      [Bounds] computes the measure of each handler (seven for a pass and
      for a transaction, eight for any listener); [Finite] states the
      termination of a pass with its bound of seven resolutions, and a
      bound of eight resolutions per event on all the work of any plan of
      events.

    Findings (PROJECT.json lists them with their theorems): the two paints
    of a pass are unordered; the removal and the setting of a marker are
    unordered, and the reload does not wait for either; markers must hold
    exactly "1"; the site key keeps the port while cookies ignore it; the
    popup throws and stays open on a tab without url; the loading paint
    has no http guard; activation of a vanished tab throws; a pass that
    read the cookies before a popup transaction writes the old mode back;
    a button missing from the popup's markup disables the later ones.

    Fuel: the scripts have no loops.  A pass resolves at most seven
    requests and a transaction at most seven, so [run 7] finishes both;
    a listener adds one request ([run 8]).  These bounds are the measures
    of [Termination.Bounds]; they hold for every execution, and
    [Termination.Measure.run_drains] shows that [run] with that fuel
    empties the pool.
    The other interleaving theorems quantify over every execution of
    [steps] and use no fuel.

    Not modelled: the drawing of icons (only the path record given to
    [setIcon]), the markup of the popup (not in the repository: the
    document is a parameter of [Wiring]), the manifest;
    the browser beyond what the code observes (cookie path, secure flag
    and expiry; percent-decoding, IDNA and IPv4 normalisation of urls).
    Every line of code under [src/] is translated; what remains outside
    the development is the platform the scripts call (modelled only as
    far as the code observes it, in [Browser] and [Url]) and assets.

    Healing over the whole system holds when all the requests in
    flight belong to passes consistent with the present cookies
    ([overlapping_passes_converge]); with a popup transaction in flight
    it fails ([popup_races_reconciliation]). *)

From stdpp Require Export base list gmap strings.
From Stdlib Require Export String Ascii.

Declare Scope xdq_scope.
Delimit Scope xdq_scope with xdq.
Open Scope string_scope.
Open Scope list_scope.

Create HintDb xdq discriminated.
#[export] Hint Constants Transparent : xdq.
Create Rewrite HintDb xdq_rw.

(** ** JavaScript string helpers *)

(** [s.startsWith(searchString)] *)
Definition startsWith (s searchString : string) : bool :=
  String.prefix searchString s.

(** The value of [x || d] when [x] is a stored string or [undefined]:
    [undefined] and the empty string are falsy. *)
Definition or_default (x : option string) (d : string) : string :=
  match x with
  | Some v => if String.eqb v "" then d else v
  | None => d
  end.

Notation "x '||' d" := (or_default x d) (at level 50, left associativity) : xdq_scope.

(** ** Generic lemmas on strings *)

Lemma prefix_app (p s : string) : String.prefix p (p +:+ s) = true.
Proof.
  induction p as [|a p IH]; simpl; [by destruct s|].
  destruct (ascii_dec a a); [exact IH|congruence].
Qed.

Lemma prefix_app_inv (p s : string) :
  String.prefix p s = true -> exists t, s = p +:+ t.
Proof.
  revert s. induction p as [|a p IH]; intros s H; simpl.
  - by exists s.
  - destruct s as [|b s]; [discriminate|]. simpl in H.
    destruct (ascii_dec a b) as [->|]; [|discriminate].
    destruct (IH s H) as [t ->]. by exists t.
Qed.

Lemma prefix_empty (s : string) : String.prefix "" s = true.
Proof. by destruct s. Qed.

Lemma startsWith_app (p s : string) : startsWith (p +:+ s) p = true.
Proof. apply prefix_app. Qed.

Lemma string_app_assoc (s t u : string) : (s +:+ t) +:+ u = s +:+ (t +:+ u).
Proof. induction s as [|a s IH]; [reflexivity|exact (f_equal (String a) IH)]. Qed.

Lemma or_default_some (v d : string) : v <> "" -> or_default (Some v) d = v.
Proof. intros Hv. simpl. destruct (String.eqb_spec v ""); congruence. Qed.

Lemma string_eqb_refl_true (s : string) : String.eqb s s = true.
Proof. apply String.eqb_refl. Qed.

#[export] Hint Resolve prefix_app prefix_empty startsWith_app or_default_some : xdq.
#[export] Hint Rewrite string_eqb_refl_true : xdq_rw.

(** [case_str] splits on the boolean string comparisons of the goal. *)
Ltac case_str :=
  repeat match goal with
  | |- context [String.eqb ?a ?b] => destruct (String.eqb_spec a b); subst
  | H : context [String.eqb ?a ?b] |- _ => destruct (String.eqb_spec a b); subst
  end.
