(* ===== verification/Mode.v ===== *)
(** * Modes and icon paths

    The mode of a site is the string ["off"], ["debug"] or ["profile"]
    in the code (the keys of [ICON_PATHS], the ids of the popup's
    buttons, the values kept in [chrome.storage.local]).  [mode] is the
    three-valued type the specifications use, [mode_str] its JavaScript
    string and [mode_of_str] the partial inverse; [icon_paths] is the
    record [{16: ..., 48: ..., 128: ...}] that [chrome.action.setIcon]
    receives as [path]. *)

From S2P Require Import Prelude.

Inductive mode := Off | Debug | Profile.

#[export] Instance mode_eq_dec : EqDecision mode.
Proof. solve_decision. Defined.

Definition mode_str (m : mode) : string :=
  match m with
  | Off => "off"
  | Debug => "debug"
  | Profile => "profile"
  end.

Definition mode_of_str (s : string) : option mode :=
  if String.eqb s "off" then Some Off
  else if String.eqb s "debug" then Some Debug
  else if String.eqb s "profile" then Some Profile
  else None.

#[export] Instance mode_countable : Countable mode.
Proof.
  refine (inj_countable' (fun m => mode_str m) (fun s => default Off (mode_of_str s)) _).
  by intros [].
Defined.

(** A JavaScript string that names a mode. *)
Definition is_mode_str (s : string) : bool :=
  match mode_of_str s with Some _ => true | None => false end.

(** [{16: ..., 48: ..., 128: ...}] *)
Record icon_paths := IconPaths { path16 : string; path48 : string; path128 : string }.

#[export] Instance icon_paths_eq_dec : EqDecision icon_paths.
Proof. solve_decision. Defined.

(** ** Lemmas *)

Lemma mode_of_str_mode_str (m : mode) : mode_of_str (mode_str m) = Some m.
Proof. by destruct m. Qed.

Lemma mode_of_str_Some (s : string) (m : mode) :
  mode_of_str s = Some m -> s = mode_str m.
Proof.
  unfold mode_of_str. case_str; intros H; simplify_eq; reflexivity.
Qed.

Lemma mode_str_inj (m1 m2 : mode) : mode_str m1 = mode_str m2 -> m1 = m2.
Proof. destruct m1, m2; simpl; congruence. Qed.

Lemma mode_str_neq_empty (m : mode) : mode_str m <> "".
Proof. by destruct m. Qed.

Lemma mode_str_eqb (m1 m2 : mode) :
  String.eqb (mode_str m1) (mode_str m2) = bool_decide (m1 = m2).
Proof. by destruct m1, m2. Qed.

Lemma is_mode_str_mode_str (m : mode) : is_mode_str (mode_str m) = true.
Proof. by destruct m. Qed.

Lemma is_mode_str_spec (s : string) :
  is_mode_str s = true <-> exists m, s = mode_str m.
Proof.
  unfold is_mode_str. split.
  - destruct (mode_of_str s) as [m|] eqn:E; [|discriminate].
    intros _. exists m. by apply mode_of_str_Some.
  - intros [m ->]. by rewrite mode_of_str_mode_str.
Qed.

#[export] Hint Resolve mode_of_str_mode_str mode_str_neq_empty is_mode_str_mode_str : xdq.
#[export] Hint Rewrite mode_of_str_mode_str mode_str_eqb is_mode_str_mode_str : xdq_rw.
