(* ===== verification/Url.v ===== *)
(** * URLs and site keys

    Both scripts compute the key of a site the same way:
    [const { protocol, host } = new URL(pageUrl);
     const siteUrl = `${protocol}//${host}`;]
    ([src/background.js] lines 76-77 and 108-109, [src/popup.js] lines
    45-46).  [new URL] is the browser's WHATWG URL parser, a library the
    sources call; [new_URL] models the part of it that these URLs exercise
    (the URLs the browser serialises into [tab.url]): the scheme, the
    authority with its user information dropped, the host name lower-cased
    for special schemes and the port dropped when it is the scheme's
    default.  It returns [None] where the constructor throws a
    [TypeError].  The cookie API is called with [siteUrl] and scopes
    cookies by [hostname], which this file also exposes. *)

From S2P Require Import Prelude.

Record URL := MkURL {
  protocol : string;   (** the scheme and [":"], e.g. ["https:"] *)
  host : string;       (** host name and non-default port, e.g. ["a.b:8080"] *)
  hostname : string    (** host name only, e.g. ["a.b"] *)
}.

#[export] Instance URL_eq_dec : EqDecision URL.
Proof. solve_decision. Defined.

(** ** Character classes *)

Definition ascii_in (c : ascii) (cs : string) : bool :=
  existsb (fun d => Ascii.eqb c d) (list_ascii_of_string cs).

Definition is_alpha (c : ascii) : bool :=
  let n := nat_of_ascii c in (((65 <=? n) && (n <=? 90)) || ((97 <=? n) && (n <=? 122)))%nat.

Definition is_digit (c : ascii) : bool :=
  let n := nat_of_ascii c in ((48 <=? n) && (n <=? 57))%nat.

Definition is_scheme_char (c : ascii) : bool :=
  is_alpha c || is_digit c || ascii_in c "+-.".

Definition ascii_lower (c : ascii) : ascii :=
  let n := nat_of_ascii c in
  if ((65 <=? n) && (n <=? 90))%nat then ascii_of_nat (n + 32)%nat else c.

Fixpoint lower (s : string) : string :=
  match s with
  | EmptyString => EmptyString
  | String c s' => String (ascii_lower c) (lower s')
  end.

Fixpoint all_digits (s : string) : bool :=
  match s with
  | EmptyString => true
  | String c s' => is_digit c && all_digits s'
  end.

(** ** Scanning *)

(** [split_at stop s] is [(a, b)] with [s = a ++ b], [a] free of [stop]
    characters and [b] empty or starting with one. *)
Fixpoint split_at (stop : ascii -> bool) (s : string) : string * string :=
  match s with
  | EmptyString => (EmptyString, EmptyString)
  | String c s' =>
      if stop c then (EmptyString, s)
      else let '(a, b) := split_at stop s' in (String c a, b)
  end.

(** The scheme: scheme characters up to the first [":"]. *)
Fixpoint scan_scheme (s : string) : option (string * string) :=
  match s with
  | EmptyString => None
  | String c s' =>
      if Ascii.eqb c ":" then Some (EmptyString, s')
      else if is_scheme_char c then
        match scan_scheme s' with
        | Some (a, b) => Some (String c a, b)
        | None => None
        end
      else None
  end.

Fixpoint drop_slashes (s : string) : string :=
  match s with
  | String c s' => if ascii_in c "/\" then drop_slashes s' else s
  | EmptyString => EmptyString
  end.

(** Everything after the last ["@"] of an authority. *)
Fixpoint after_last_at (s : string) : string :=
  match s with
  | EmptyString => EmptyString
  | String c s' =>
      if ascii_in "@" s' then after_last_at s'
      else if Ascii.eqb c "@" then s' else s
  end.

Definition special_schemes : list string := ["http"; "https"; "ws"; "wss"; "ftp"; "file"].

Definition is_special (scheme : string) : bool :=
  existsb (String.eqb scheme) special_schemes.

Definition default_port (scheme : string) : string :=
  if String.eqb scheme "http" || String.eqb scheme "ws" then "80"
  else if String.eqb scheme "https" || String.eqb scheme "wss" then "443"
  else if String.eqb scheme "ftp" then "21"
  else "".

(** Host name and port of the authority, IPv6 literals kept whole. *)
Definition split_host_port (auth : string) : string * string :=
  match auth with
  | String "[" _ =>
      let '(a, b) := split_at (fun c => Ascii.eqb c "]") auth in
      match b with
      | String _ (String ":" port) => (a +:+ "]", port)
      | String _ _ => (a +:+ "]", "")
      | EmptyString => (a, "")
      end
  | _ =>
      let '(a, b) := split_at (fun c => Ascii.eqb c ":") auth in
      match b with
      | String _ port => (a, port)
      | EmptyString => (a, "")
      end
  end.

(** [new URL(input)]; [None] where the constructor throws. *)
Definition new_URL (input : string) : option URL :=
  match scan_scheme input with
  | Some (String c0 _ as scheme0, rest) =>
      if negb (is_alpha c0) then None else
      let scheme := lower scheme0 in
      let special := is_special scheme in
      let after :=
        if special then Some (drop_slashes rest)
        else match rest with
             | String "/" (String "/" r) => Some r
             | _ => None
             end in
      match after with
      | None => Some (MkURL (scheme +:+ ":") "" "")
      | Some r =>
          let stop := fun c => ascii_in c "/?#" || (special && Ascii.eqb c "\") in
          let auth := after_last_at (fst (split_at stop r)) in
          let '(hn0, port) := split_host_port auth in
          let hn := if special then lower hn0 else hn0 in
          if negb (all_digits port) then None
          else if special && negb (String.eqb scheme "file") && String.eqb hn "" then None
          else
            let hst :=
              if String.eqb port "" || String.eqb port (default_port scheme) then hn
              else hn +:+ ":" +:+ port in
            Some (MkURL (scheme +:+ ":") hst hn)
      end
  | _ => None
  end.

(** [`${protocol}//${host}`] *)
Definition siteUrl_of (u : URL) : string := protocol u +:+ "//" +:+ host u.

(** The host name the cookie API scopes a [url] to. *)
Definition cookie_host (url : string) : option string :=
  match new_URL url with Some u => Some (hostname u) | None => None end.

(** ** Behaviour on concrete URLs *)

Example new_URL_https :
  new_URL "https://Example.com/a/b?q=1#f" = Some (MkURL "https:" "example.com" "example.com").
Proof. reflexivity. Qed.

Example new_URL_port :
  new_URL "http://localhost:8080/index.php" = Some (MkURL "http:" "localhost:8080" "localhost").
Proof. reflexivity. Qed.

Example new_URL_default_port :
  new_URL "https://a.test:443/" = Some (MkURL "https:" "a.test" "a.test").
Proof. reflexivity. Qed.

Example new_URL_userinfo :
  new_URL "http://user:pw@a.test/" = Some (MkURL "http:" "a.test" "a.test").
Proof. reflexivity. Qed.

Example new_URL_chrome :
  new_URL "chrome://extensions/" = Some (MkURL "chrome:" "extensions" "extensions").
Proof. reflexivity. Qed.

Example new_URL_about : new_URL "about:blank" = Some (MkURL "about:" "" "").
Proof. reflexivity. Qed.

Example new_URL_invalid : new_URL "not a url" = None.
Proof. reflexivity. Qed.

Example new_URL_empty_host : new_URL "http://" = None.
Proof. reflexivity. Qed.

(** ** The site key and the cookie scope *)

Lemma new_URL_protocol (p : string) (u : URL) :
  new_URL p = Some u -> exists s0 r, scan_scheme p = Some (s0, r) /\ protocol u = lower s0 +:+ ":".
Proof.
  unfold new_URL. destruct (scan_scheme p) as [[s0 r]|]; [|discriminate].
  destruct s0 as [|c0 s0']; [discriminate|].
  intros H. exists (String c0 s0'), r. split; [done|].
  repeat (case_match; simplify_eq/=); done.
Qed.

Lemma scan_scheme_http (t s0 r : string) :
  scan_scheme ("http" +:+ t) = Some (s0, r) -> exists s', s0 = "http" +:+ s'.
Proof.
  intros H. simpl in H. change ("" +:+ t) with t in H.
  destruct (scan_scheme t) as [[a b]|]; [|discriminate].
  injection H as <- <-. by exists a.
Qed.

(** The site key of a page whose url starts with "http" starts with
    "http": the scheme is kept, lower-cased, in [protocol]. *)
Lemma siteUrl_of_http (p : string) (u : URL) :
  startsWith p "http" = true -> new_URL p = Some u -> startsWith (siteUrl_of u) "http" = true.
Proof.
  intros Hp Hu. apply prefix_app_inv in Hp as [t ->].
  destruct (new_URL_protocol _ _ Hu) as (s0 & r & Hs & Hpr).
  destruct (scan_scheme_http _ _ _ Hs) as [s' ->].
  unfold siteUrl_of, startsWith. rewrite Hpr. simpl. apply prefix_empty.
Qed.

