(* ===== verification/Browser.v ===== *)
(** * The browser and the scripts' asynchronous requests

    Every [chrome.*] call of the two scripts is a request that the browser
    resolves later, after which it runs the callback; the script that made
    the call goes on at once.  A script is therefore a tree of requests
    ([prog]): each request constructor carries its arguments and its
    callback, [Par p q] is a call made without waiting ([p]) followed by the
    rest of the synchronous code ([q]), [Throw] is an uncaught exception,
    [WindowClose] is the synchronous [window.close()].

    [world] is the state of the browser the scripts observe.  [fire]
    resolves one request (its effect on the world, then its callback),
    [issue] runs synchronous code until every remaining call is a pending
    request, and [step] resolves any pending request: the browser gives no
    ordering between independent requests, so every interleaving is an
    execution.  [run] (first come, first served) and [run_sched] (an
    explicit choice at each step) compute executions; [steps_invariant] is
    the induction principle every component's invariant uses. *)

From S2P Require Import Prelude Mode Url.

Inductive js_error := TypeError.

#[export] Instance js_error_eq_dec : EqDecision js_error.
Proof. solve_decision. Defined.

(** [chrome.cookies.Cookie], the fields the scripts read. *)
Record cookie := Cookie { cookie_name : string; cookie_value : string }.

(** [chrome.tabs.Tab], the fields the scripts read. *)
Record tab := Tab { tab_id : nat; tab_url : option string; tab_active : bool; tab_windowId : nat }.

(** Observable effects, in the order they take place. *)
Inductive effect :=
| EStorageSet (key value : string)
| ECookieSet (host name value : string)
| ECookieRemove (host name : string)
| EIcon (tabId : nat) (path : icon_paths)
| EReload (tabId : nat)
| EClose
| EUncaught (e : js_error).

#[export] Instance effect_eq_dec : EqDecision effect.
Proof. solve_decision. Defined.

Record world := World {
  storage : gmap string string;             (** [chrome.storage.local] *)
  cookies : gmap (string * string) string;  (** (host name, cookie name) -> value *)
  icons : gmap nat icon_paths;              (** the action icon of each tab *)
  tabs : list tab;
  current_window : nat;
  trace : list effect
}.

Inductive prog :=
| Done
| Throw (e : js_error)
| Par (p q : prog)
| WindowClose (k : prog)
| StorageGet (key : string) (k : option string -> prog)
| StorageSet (key value : string) (k : prog)
| CookieGet (url name : string) (k : option cookie -> prog)
| CookieSet (url name value : string) (k : prog)
| CookieRemove (url name : string) (k : prog)
| SetIcon (tabId : nat) (path : option icon_paths) (k : prog)
| TabsGet (tabId : nat) (k : option tab -> prog)
| TabsQuery (k : list tab -> prog)
| Reload (tabId : nat) (k : prog).

(** [list.forEach(f)] followed by the code after it: every call [f x]
    is made without waiting, in list order. *)
Definition forEach {A : Type} (l : list A) (f : A -> prog) (rest : prog) : prog :=
  foldr (fun x k => Par (f x) k) rest l.

(** ** The browser's side of each request *)

Definition log (e : effect) (w : world) : world :=
  World (storage w) (cookies w) (icons w) (tabs w) (current_window w) (trace w ++ [e]).

(** [chrome.storage.local.set({[key]: value})] *)
Definition storage_set (key value : string) (w : world) : world :=
  log (EStorageSet key value)
    (World (<[key:=value]> (storage w)) (cookies w) (icons w) (tabs w) (current_window w) (trace w)).

(** [chrome.cookies.get({url, name})]: [undefined] when there is no such
    cookie or the url has no host. *)
Definition cookies_get (jar : gmap (string * string) string) (url name : string) : option cookie :=
  match cookie_host url with
  | Some h => Cookie name <$> jar !! (h, name)
  | None => None
  end.

Definition cookies_set (url name value : string) (w : world) : world :=
  match cookie_host url with
  | Some h =>
      log (ECookieSet h name value)
        (World (storage w) (<[(h, name):=value]> (cookies w)) (icons w) (tabs w)
           (current_window w) (trace w))
  | None => w
  end.

Definition cookies_remove (url name : string) (w : world) : world :=
  match cookie_host url with
  | Some h =>
      log (ECookieRemove h name)
        (World (storage w) (delete (h, name) (cookies w)) (icons w) (tabs w)
           (current_window w) (trace w))
  | None => w
  end.

(** [chrome.action.setIcon({tabId, path})]; a [path] of [undefined] is
    rejected and changes nothing. *)
Definition set_icon (tabId : nat) (path : option icon_paths) (w : world) : world :=
  match path with
  | Some p =>
      log (EIcon tabId p)
        (World (storage w) (cookies w) (<[tabId:=p]> (icons w)) (tabs w)
           (current_window w) (trace w))
  | None => w
  end.

Definition tabs_get (w : world) (tabId : nat) : option tab :=
  List.find (fun t => Nat.eqb (tab_id t) tabId) (tabs w).

(** [chrome.tabs.query({active: true, currentWindow: true})] *)
Definition tabs_query_active (w : world) : list tab :=
  List.filter (fun t => tab_active t && Nat.eqb (tab_windowId t) (current_window w)) (tabs w).

(** Resolve one request: its effect, then its callback. *)
Definition fire (w : world) (p : prog) : world * prog :=
  match p with
  | StorageGet key k => (w, k (storage w !! key))
  | StorageSet key v k => (storage_set key v w, k)
  | CookieGet url name k => (w, k (cookies_get (cookies w) url name))
  | CookieSet url name v k => (cookies_set url name v w, k)
  | CookieRemove url name k => (cookies_remove url name w, k)
  | SetIcon t path k => (set_icon t path w, k)
  | TabsGet t k => (w, k (tabs_get w t))
  | TabsQuery k => (w, k (tabs_query_active w))
  | Reload t k => (log (EReload t) w, k)
  | Done | Throw _ | Par _ _ | WindowClose _ => (w, p)
  end.

(** Run synchronous code: the requests it leaves pending, in call order. *)
Fixpoint issue (w : world) (p : prog) : world * list prog :=
  match p with
  | Done => (w, [])
  | Throw e => (log (EUncaught e) w, [])
  | Par p q =>
      let '(w1, l1) := issue w p in
      let '(w2, l2) := issue w1 q in
      (w2, l1 ++ l2)
  | WindowClose k => issue (log EClose w) k
  | r => (w, [r])
  end.

Definition resolve (w : world) (r : prog) : world * list prog :=
  let '(w1, p) := fire w r in issue w1 p.

(** ** Executions *)

Definition config : Type := world * list prog.

(** A script starts by running its synchronous code. *)
Definition start (w : world) (p : prog) : config := issue w p.

Definition fire_at (i : nat) (c : config) : option config :=
  let '(w, pool) := c in
  match pool !! i with
  | Some r => let '(w', ks) := resolve w r in Some (w', delete i pool ++ ks)
  | None => None
  end.

Inductive step : config -> config -> Prop :=
| step_fire i c c' : fire_at i c = Some c' -> step c c'.

Definition steps : config -> config -> Prop := rtc step.

(** First come, first served, with [fuel] resolutions at most. *)
Fixpoint run (fuel : nat) (c : config) : config :=
  match fuel with
  | O => c
  | S n => match fire_at 0 c with Some c' => run n c' | None => c end
  end.

(** Resolve the pending requests at the given positions, in order. *)
Fixpoint run_sched (sched : list nat) (c : config) : option config :=
  match sched with
  | [] => Some c
  | i :: rest => match fire_at i c with Some c' => run_sched rest c' | None => None end
  end.

(** Resolve [n] requests along one chain of callbacks, issuing nothing:
    the execution of code that makes one call at a time. *)
Fixpoint fire_chain (n : nat) (w : world) (p : prog) : world * prog :=
  match n with
  | O => (w, p)
  | S n' => let '(w1, p1) := fire w p in fire_chain n' w1 p1
  end.

(** ** Observations *)

Definition reloads (w : world) : nat :=
  List.length (List.filter (fun e => match e with EReload _ => true | _ => false end) (trace w)).

Definition is_cookie_effect (e : effect) : bool :=
  match e with ECookieSet _ _ _ | ECookieRemove _ _ => true | _ => false end.

(** The cookie writes of a trace. *)
Definition cookie_effects (l : list effect) : list effect := List.filter is_cookie_effect l.

(** The storage writes of a trace. *)
Definition storage_writes (l : list effect) : list effect :=
  List.filter (fun e => match e with EStorageSet _ _ => true | _ => false end) l.

Definition closed (w : world) : bool := bool_decide (EClose ∈ trace w).

(** Position of the first occurrence of an effect in the trace. *)
Fixpoint index_of (e : effect) (l : list effect) : option nat :=
  match l with
  | [] => None
  | x :: l' => if decide (x = e) then Some 0 else S <$> index_of e l'
  end.

(** ** Executions computed by the schedulers are executions of [step] *)

Lemma run_sched_steps (sched : list nat) (c c' : config) :
  run_sched sched c = Some c' -> steps c c'.
Proof.
  revert c. induction sched as [|i rest IH]; intros c H; simpl in H.
  - injection H as <-. apply rtc_refl.
  - destruct (fire_at i c) as [c1|] eqn:E; [|discriminate].
    eapply rtc_l; [by econstructor|]. by apply IH.
Qed.

Lemma run_steps (fuel : nat) (c : config) : steps c (run fuel c).
Proof.
  revert c. induction fuel as [|n IH]; intros c; simpl; [apply rtc_refl|].
  destruct (fire_at 0 c) as [c1|] eqn:E; [|apply rtc_refl].
  eapply rtc_l; [by econstructor|]. apply IH.
Qed.

Lemma steps_trans (c1 c2 c3 : config) : steps c1 c2 -> steps c2 c3 -> steps c1 c3.
Proof. apply rtc_trans. Qed.

(** A pool with no pending request cannot step. *)
Lemma steps_nil (w : world) (c : config) : steps (w, []) c -> c = (w, []).
Proof.
  intros H. inversion H as [|? ? ? Hs]; [done|].
  inversion Hs as [i ? ? Hf]; subst. simpl in Hf. discriminate.
Qed.

(** A configuration with one pending request either has not moved or
    has resolved it. *)
Lemma steps_single (w : world) (r : prog) (c : config) :
  steps (w, [r]) c -> c = (w, [r]) \/ steps ((resolve w r).1, (resolve w r).2) c.
Proof.
  intros H. inversion H as [|? c1 ? Hs Hr]; [by left|right]. subst.
  inversion Hs as [i ? ? Hf]; subst. simpl in Hf.
  destruct i as [|i]; [|by destruct i]. simpl in Hf.
  destruct (resolve w r) as [w' ks]. injection Hf as <-. exact Hr.
Qed.

(** A single pending request that leads to a finished state has been
    resolved on the way. *)
Lemma steps_single_done (w w' : world) (r : prog) :
  steps (w, [r]) (w', []) -> steps (resolve w r) (w', []).
Proof.
  intros H. apply steps_single in H as [H|H]; [discriminate|].
  by destruct (resolve w r).
Qed.

(** ** Synchronous code only appends to the trace *)

Lemma issue_state (w : world) (p : prog) :
  storage (issue w p).1 = storage w /\ cookies (issue w p).1 = cookies w /\
  icons (issue w p).1 = icons w /\ tabs (issue w p).1 = tabs w /\
  current_window (issue w p).1 = current_window w.
Proof.
  revert w. induction p; intros w; simpl; try done.
  - destruct (issue w p1) as [w1 l1] eqn:E1. destruct (issue w1 p2) as [w2 l2] eqn:E2.
    simpl. destruct (IHp1 w) as (A1 & B1 & C1 & D1 & F1). rewrite E1 in A1, B1, C1, D1, F1.
    destruct (IHp2 w1) as (A2 & B2 & C2 & D2 & F2). rewrite E2 in A2, B2, C2, D2, F2.
    simpl in *. repeat split; congruence.
  - exact (IHp (log EClose w)).
Qed.

(** ** The invariant principle *)

Section Invariant.
Variable Inv : config -> Prop.

(** The pool is a multiset: its order is not observable. *)
Hypothesis Inv_perm : forall w l l', l ≡ₚ l' -> Inv (w, l) -> Inv (w, l').

(** Resolving any pending request preserves the invariant. *)
Hypothesis Inv_resolve :
  forall w r l, Inv (w, r :: l) -> Inv ((resolve w r).1, l ++ (resolve w r).2).

Lemma step_invariant (c c' : config) : step c c' -> Inv c -> Inv c'.
Proof.
  intros [i [w l] c'' Hf] HI. simpl in Hf.
  destruct (l !! i) as [r|] eqn:Hi; [|discriminate].
  destruct (resolve w r) as [w' ks] eqn:Hr. injection Hf as <-.
  pose proof (Inv_resolve w r (delete i l)) as H. rewrite Hr in H. apply H.
  eapply Inv_perm; [|exact HI]. by apply delete_Permutation.
Qed.

Lemma steps_invariant (c c' : config) : steps c c' -> Inv c -> Inv c'.
Proof. induction 1; eauto using step_invariant. Qed.
End Invariant.

(** The common case: every pending request has a shape [P] and the world
    satisfies [Q]; resolving a request of shape [P] keeps [Q] and leaves
    requests of shape [P]. *)
Lemma steps_forall (P : prog -> Prop) (Q : world -> Prop) :
  (forall w r, P r -> Q w -> Q (resolve w r).1 /\ Forall P (resolve w r).2) ->
  forall c c', steps c c' -> Forall P c.2 -> Q c.1 -> Forall P c'.2 /\ Q c'.1.
Proof.
  intros HP c c' Hs HF HQ.
  refine (steps_invariant (fun c => Forall P c.2 /\ Q c.1) _ _ c c' Hs (conj HF HQ)).
  - intros w l l' Hp [H1 H2]. split; [|done]. simpl in *. by rewrite <- Hp.
  - intros w r l [H1 H2]. simpl in *. apply Forall_cons in H1 as [Hr Hl].
    destruct (HP w r Hr H2) as [HQ' HF']. split; [|done]. apply Forall_app; done.
Qed.

(** ** How the browser's operations change the world *)

Lemma cookie_effects_log (e : effect) (w : world) :
  is_cookie_effect e = false -> cookie_effects (trace (log e w)) = cookie_effects (trace w).
Proof. intros He. unfold cookie_effects. simpl. rewrite List.filter_app. simpl. rewrite He. apply app_nil_r. Qed.

Lemma issue_cookie_effects (w : world) (p : prog) :
  cookie_effects (trace (issue w p).1) = cookie_effects (trace w).
Proof.
  revert w. induction p; intros w; simpl; try done.
  - by apply cookie_effects_log.
  - destruct (issue w p1) as [w1 l1] eqn:E1. destruct (issue w1 p2) as [w2 l2] eqn:E2.
    simpl. specialize (IHp1 w). specialize (IHp2 w1). rewrite E1 in IHp1. rewrite E2 in IHp2.
    simpl in *. congruence.
  - rewrite IHp. by apply cookie_effects_log.
Qed.

Lemma storage_set_lookup (key value s : string) (w : world) :
  storage (storage_set key value w) !! s = if decide (key = s) then Some value else storage w !! s.
Proof. simpl. apply lookup_insert. Qed.

Lemma reloads_log (e : effect) (w : world) :
  reloads (log e w) = reloads w + (match e with EReload _ => 1 | _ => 0 end).
Proof. unfold reloads. simpl. rewrite List.filter_app, length_app. by destruct e. Qed.

Lemma closed_log (e : effect) (w : world) :
  closed (log e w) = closed w || bool_decide (e = EClose).
Proof.
  unfold closed. simpl. apply eq_bool_prop_intro.
  rewrite orb_True, !bool_decide_spec, elem_of_app, list_elem_of_singleton.
  split; (intros [H|H]; [left; exact H|right; by symmetry]).
Qed.

(** What a cookie write leaves unchanged. *)
Lemma cookies_set_frame (url name value : string) (w : world) :
  let w' := cookies_set url name value w in
  storage w' = storage w /\ icons w' = icons w /\ reloads w' = reloads w /\ closed w' = closed w.
Proof.
  unfold cookies_set. destruct (cookie_host url); [|done].
  simpl. rewrite reloads_log, closed_log. simpl. rewrite Nat.add_0_r, orb_false_r. done.
Qed.

Lemma cookies_remove_frame (url name : string) (w : world) :
  let w' := cookies_remove url name w in
  storage w' = storage w /\ icons w' = icons w /\ reloads w' = reloads w /\ closed w' = closed w.
Proof.
  unfold cookies_remove. destruct (cookie_host url); [|done].
  simpl. rewrite reloads_log, closed_log. simpl. rewrite Nat.add_0_r, orb_false_r. done.
Qed.

(** The cookie a read sees after a cookie write. *)
Lemma cookies_get_set (url name value : string) (w : world) (n : string) :
  cookies_get (cookies (cookies_set url name value w)) url n =
    if decide (n = name) then (if cookie_host url is Some _ then Some (Cookie n value) else None)
    else cookies_get (cookies w) url n.
Proof.
  unfold cookies_set, cookies_get. destruct (cookie_host url) as [h|]; simpl; [|by case_decide].
  case_decide; subst; [by rewrite lookup_insert_eq|]. rewrite lookup_insert_ne; [done|congruence].
Qed.

Lemma cookies_get_remove (url name : string) (w : world) (n : string) :
  cookies_get (cookies (cookies_remove url name w)) url n =
    if decide (n = name) then None else cookies_get (cookies w) url n.
Proof.
  unfold cookies_remove, cookies_get. destruct (cookie_host url) as [h|]; simpl; [|by case_decide].
  case_decide; subst; [by rewrite lookup_delete_eq|]. rewrite lookup_delete_ne; [done|congruence].
Qed.

#[export] Hint Resolve run_sched_steps run_steps : xdq.
