(* ===== verification/Origin.v ===== *)
(** * The site key parses back to the page's origin

    Both scripts compute [siteUrl = `${protocol}//${host}`] from the
    page's url and hand it to [chrome.storage] as a key and to
    [chrome.cookies] as the url whose host scopes the cookies.  This file
    proves the round trip that makes the second use sound: for every url
    [new_URL] accepts, parsing the site key again gives the same
    [protocol], [host] and [hostname] ([new_URL_siteUrl_of]), so the
    cookie API, which scopes cookies by the hostname of the url it is
    given, reads and writes the jar of the page's host.

    The proof follows the parser: character-class lemmas proved over all
    256 characters by case analysis on their bits, then what each scanner
    ([scan_scheme], [split_at], [after_last_at], [split_host_port]) leaves
    of its input. *)

From S2P Require Import Prelude Url Browser.

Module Origin.

(** ** Strings all of whose characters satisfy a test *)

Fixpoint all_chars (p : ascii -> bool) (s : string) : bool :=
  match s with
  | EmptyString => true
  | String c s' => p c && all_chars p s'
  end.

Lemma all_chars_app (p : ascii -> bool) (s t : string) :
  all_chars p (s +:+ t) = all_chars p s && all_chars p t.
Proof. induction s as [|c s IH]; simpl; [done|]. by rewrite IH, andb_assoc. Qed.

Lemma lower_app (s t : string) : lower (s +:+ t) = lower s +:+ lower t.
Proof. induction s as [|c s IH]; simpl; [done|by rewrite IH]. Qed.

(** ** Characters, by case analysis on their bits *)

Ltac by_bits :=
  match goal with c : ascii |- _ => destruct c as [[][][][][][][][]] end;
  try intros ?H; first [reflexivity | discriminate].

Lemma ascii_lower_idem (c : ascii) : ascii_lower (ascii_lower c) = ascii_lower c.
Proof. by_bits. Qed.

Lemma is_scheme_char_lower (c : ascii) : is_scheme_char (ascii_lower c) = is_scheme_char c.
Proof. by_bits. Qed.

Lemma is_alpha_lower (c : ascii) : is_alpha (ascii_lower c) = is_alpha c.
Proof. by_bits. Qed.

Lemma scheme_char_colon (c : ascii) : is_scheme_char c = true -> Ascii.eqb c ":" = false.
Proof. by_bits. Qed.

(** The characters that stop the authority, as [new_URL] tests them. *)
Definition stopc (special : bool) (c : ascii) : bool :=
  ascii_in c "/?#" || (special && Ascii.eqb c "\").

(** The characters a host may keep: no stop character and no ["@"]. *)
Definition hostc (special : bool) (c : ascii) : bool :=
  negb (stopc special c) && negb (Ascii.eqb c "@").

Lemma hostc_lower (b : bool) (c : ascii) : hostc b (ascii_lower c) = hostc b c.
Proof. destruct b; by_bits. Qed.

Lemma eqb_lower (c d : ascii) :
  d = ":"%char \/ d = "]"%char \/ d = "["%char -> Ascii.eqb (ascii_lower c) d = Ascii.eqb c d.
Proof. intros [-> | [-> | ->]]; by_bits. Qed.

Lemma hostc_not_stop (b : bool) (c : ascii) : hostc b c = true -> stopc b c = false.
Proof. unfold hostc. destruct (stopc b c); [discriminate|done]. Qed.

Lemma hostc_not_at (b : bool) (c : ascii) : hostc b c = true -> Ascii.eqb c "@" = false.
Proof. unfold hostc. destruct (Ascii.eqb c "@"); [by rewrite andb_false_r|done]. Qed.

#[local] Hint Rewrite ascii_lower_idem is_scheme_char_lower is_alpha_lower hostc_lower
  all_chars_app lower_app : xdq_rw.

Lemma lower_idem (s : string) : lower (lower s) = lower s.
Proof. induction s as [|c s IH]; simpl; by autorewrite with xdq_rw; rewrite ?IH. Qed.

Lemma all_chars_lower (p : ascii -> bool) (s : string) :
  (forall c, p (ascii_lower c) = p c) -> all_chars p (lower s) = all_chars p s.
Proof. intros Hp. induction s as [|c s IH]; simpl; [done|]. by rewrite Hp, IH. Qed.

Lemma all_chars_impl (p q : ascii -> bool) (s : string) :
  (forall c, p c = true -> q c = true) -> all_chars p s = true -> all_chars q s = true.
Proof.
  intros Hpq. induction s as [|c s IH]; simpl; [done|].
  intros [Hc Hs]%andb_true_iff. by rewrite Hpq, IH.
Qed.

Lemma eqb_at_sym (c : ascii) : Ascii.eqb "@" c = Ascii.eqb c "@".
Proof. by_bits. Qed.

Lemma hostc_not_slash (c : ascii) : hostc true c = true -> ascii_in c "/\" = false.
Proof. by_bits. Qed.

Lemma hostc_close (b : bool) : hostc b "]" = true.
Proof. by destruct b. Qed.

Lemma hostc_colon (b : bool) : hostc b ":" = true.
Proof. by destruct b. Qed.

(** ** What the scanners leave *)

Lemma scan_scheme_app (a b : string) :
  all_chars is_scheme_char a = true -> scan_scheme (a +:+ String ":" b) = Some (a, b).
Proof.
  induction a as [|c a IH]; simpl; [done|]. intros [Hc Ha]%andb_true_iff.
  by rewrite (scheme_char_colon c Hc), Hc, IH.
Qed.

Lemma scan_scheme_spec (s a b : string) :
  scan_scheme s = Some (a, b) -> all_chars is_scheme_char a = true /\ s = a +:+ String ":" b.
Proof.
  revert a b. induction s as [|c s IH]; intros a b H; simpl in H; [discriminate|].
  destruct (Ascii.eqb_spec c ":") as [->|Ec].
  - by injection H as <- <-.
  - destruct (is_scheme_char c) eqn:Hc; [|discriminate].
    destruct (scan_scheme s) as [[a' b']|]; [|discriminate]. injection H as <- <-.
    destruct (IH a' b' eq_refl) as [Ha ->]. simpl. by rewrite Hc, Ha.
Qed.

Lemma split_at_spec (stop : ascii -> bool) (s a b : string) :
  split_at stop s = (a, b) ->
  s = a +:+ b /\ all_chars (fun c => negb (stop c)) a = true.
Proof.
  revert a b. induction s as [|c s IH]; intros a b H; simpl in H.
  - by injection H as <- <-.
  - destruct (stop c) eqn:Hc; [by injection H as <- <-|].
    destruct (split_at stop s) as [a' b']. injection H as <- <-.
    destruct (IH a' b' eq_refl) as [-> Ha]. simpl. by rewrite Hc, Ha.
Qed.

Lemma split_at_all (stop : ascii -> bool) (s : string) :
  all_chars (fun c => negb (stop c)) s = true -> split_at stop s = (s, "").
Proof.
  induction s as [|c s IH]; simpl; [done|]. intros [Hc Hs]%andb_true_iff.
  apply negb_true_iff in Hc. by rewrite Hc, IH.
Qed.

Lemma split_at_app (stop : ascii -> bool) (a t : string) (c : ascii) :
  all_chars (fun c => negb (stop c)) a = true -> stop c = true ->
  split_at stop (a +:+ String c t) = (a, String c t).
Proof.
  intros Ha Hc. induction a as [|d a IH]; simpl; [by rewrite Hc|].
  simpl in Ha. apply andb_true_iff in Ha as [Hd Ha]. apply negb_true_iff in Hd. by rewrite Hd, IH.
Qed.

Lemma ascii_in_at (s : string) :
  ascii_in "@" s = negb (all_chars (fun c => negb (Ascii.eqb c "@")) s).
Proof.
  unfold ascii_in. induction s as [|c s IH]; [done|]. cbn [list_ascii_of_string existsb all_chars].
  by rewrite eqb_at_sym, IH, negb_andb, negb_involutive.
Qed.

Lemma after_last_at_spec (s : string) :
  (exists p, s = p +:+ after_last_at s) /\
  all_chars (fun c => negb (Ascii.eqb c "@")) (after_last_at s) = true.
Proof.
  induction s as [|c s [[p Hp] IH]]; simpl; [by split; [exists ""|]|].
  destruct (ascii_in "@" s) eqn:E.
  - split; [|done]. exists (String c p). by rewrite Hp at 1.
  - rewrite ascii_in_at in E. apply negb_false_iff in E.
    destruct (Ascii.eqb c "@") eqn:Ec; split; try done.
    + by exists (String c "").
    + by exists "".
    + simpl. by rewrite Ec, E.
Qed.

Lemma after_last_at_id (s : string) :
  all_chars (fun c => negb (Ascii.eqb c "@")) s = true -> after_last_at s = s.
Proof.
  destruct s as [|c s]; simpl; [done|]. intros [Hc Hs]%andb_true_iff.
  apply negb_true_iff in Hc. by rewrite ascii_in_at, Hs, Hc.
Qed.

Lemma drop_slashes_id (s : string) : all_chars (hostc true) s = true -> drop_slashes s = s.
Proof. destruct s as [|c s]; simpl; [done|]. intros [Hc _]%andb_true_iff. by rewrite hostc_not_slash. Qed.

(** ** Host and port *)

Definition no_char (d : ascii) (s : string) : bool := all_chars (fun c => negb (Ascii.eqb c d)) s.

(** The host names [split_host_port] returns: a name without [":"] that
    does not open a bracket, or an IPv6 literal, closed or not (an open
    one comes without port). *)
Inductive host_shape : string -> string -> Prop :=
| shape_plain h port : no_char ":" h = true -> (forall t, h <> String "[" t) -> host_shape h port
| shape_closed x port : no_char "]" x = true -> host_shape (String "[" x +:+ "]") port
| shape_open x : no_char "]" x = true -> host_shape (String "[" x) "".

Lemma split_host_port_plain (s : string) :
  (forall t, s <> String "[" t) ->
  split_host_port s =
    let '(a, b) := split_at (fun c => Ascii.eqb c ":") s in
    match b with String _ port => (a, port) | EmptyString => (a, "") end.
Proof.
  intros H. destruct s as [|c t]; [reflexivity|].
  destruct c as [[][][][][][][][]]; try reflexivity. exfalso. by eapply H.
Qed.

Lemma split_host_port_bracket (t : string) :
  split_host_port (String "[" t) =
    let '(a, b) := split_at (fun c => Ascii.eqb c "]") (String "[" t) in
    match b with
    | EmptyString => (a, "")
    | String _ EmptyString => (a +:+ "]", "")
    | String _ (String c2 p) => if Ascii.eqb c2 ":" then (a +:+ "]", p) else (a +:+ "]", "")
    end.
Proof.
  unfold split_host_port. destruct (split_at _ (String "[" t)) as [a b].
  destruct b as [|? [|c2 p]]; try reflexivity. destruct c2 as [[][][][][][][][]]; reflexivity.
Qed.

Lemma ascii_lower_bracket (c : ascii) : ascii_lower c = "["%char -> c = "["%char.
Proof. by_bits. Qed.

Lemma no_char_lower (d : ascii) (s : string) :
  d = ":"%char \/ d = "]"%char \/ d = "["%char -> no_char d (lower s) = no_char d s.
Proof. intros Hd. apply all_chars_lower. intros c. by rewrite eqb_lower. Qed.

Lemma shape_lower (hn port : string) : host_shape hn port -> host_shape (lower hn) port.
Proof.
  intros [h p Hh Hb|x p Hx|x Hx].
  - apply shape_plain; [by rewrite no_char_lower by auto|].
    intros t Ht. destruct h as [|c h]; [discriminate|]. simpl in Ht. injection Ht as Hc _.
    apply ascii_lower_bracket in Hc. subst. by eapply Hb.
  - rewrite lower_app. simpl. apply shape_closed. by rewrite no_char_lower by auto.
  - simpl. apply shape_open. by rewrite no_char_lower by auto.
Qed.

(** A name with its port, or without, splits back into the two. *)
Lemma split_host_port_name (hn port : string) : host_shape hn port -> split_host_port hn = (hn, "").
Proof.
  intros [h p Hh Hb|x p Hx|x Hx].
  - rewrite split_host_port_plain by done. by rewrite split_at_all.
  - change (String "[" x +:+ "]") with (String "[" (x +:+ "]")). rewrite split_host_port_bracket.
    change (String "[" (x +:+ "]")) with (String "[" x +:+ String "]" "").
    rewrite split_at_app; [done| |done]. simpl. exact Hx.
  - rewrite split_host_port_bracket. rewrite split_at_all; [done|]. simpl. exact Hx.
Qed.

Lemma split_host_port_with_port (hn port : string) :
  host_shape hn port -> port <> "" -> split_host_port (hn +:+ String ":" port) = (hn, port).
Proof.
  intros [h p Hh Hb|x p Hx|x Hx] Hp.
  - rewrite split_host_port_plain.
    + rewrite split_at_app; [done|done|]. by apply Ascii.eqb_refl.
    + intros t Ht. destruct h as [|c h]; [discriminate|]. injection Ht as -> Ht. by eapply Hb.
  - rewrite string_app_assoc.
    change (String "[" x +:+ "]" +:+ String ":" p) with (String "[" (x +:+ String "]" (String ":" p))).
    rewrite split_host_port_bracket.
    change (String "[" (x +:+ String "]" (String ":" p))) with (String "[" x +:+ String "]" (String ":" p)).
    rewrite split_at_app; [| |done]; [|simpl; exact Hx]. simpl.
    change (String "[" x +:+ String "]" "") with (String "[" x +:+ "]"). done.
  - done.
Qed.

(** Close [all_chars p s = true] from the facts on the pieces of [s]. *)
Ltac chars_done :=
  rewrite ?all_chars_app; simpl;
  repeat match goal with H : ?x = true |- context [?x] => rewrite H end; done.

(** What [split_host_port] returns: a host name of the right shape, made
    of characters of the authority and ["]"], and a port made of
    characters of the authority. *)
Lemma split_host_port_shape (p : ascii -> bool) (auth hn port : string) :
  split_host_port auth = (hn, port) -> p "]"%char = true -> all_chars p auth = true ->
  host_shape hn port /\ all_chars p hn = true /\ all_chars p port = true.
Proof.
  intros H Hb Hauth. destruct auth as [|c t].
  - injection H as <- <-. split_and!; [|done..]. by apply shape_plain.
  - destruct (Ascii.eqb_spec c "[") as [->|Hc].
    + rewrite split_host_port_bracket in H. simpl in H.
      destruct (split_at _ t) as [a b] eqn:E. apply split_at_spec in E as [-> Ha].
      simpl in Hauth. rewrite all_chars_app in Hauth.
      apply andb_true_iff in Hauth as [H0 [Ha' Hb']%andb_true_iff].
      destruct b as [|c1 [|c2 q]]; [| |destruct (Ascii.eqb c2 ":")]; injection H as <- <-.
      * split_and!; [by apply shape_open|chars_done|done].
      * split_and!; [by apply shape_closed|chars_done|done].
      * simpl in Hb'. apply andb_true_iff in Hb' as [_ [_ Hq]%andb_true_iff].
        split_and!; [by apply shape_closed|chars_done|done].
      * split_and!; [by apply shape_closed|chars_done|done].
    + rewrite split_host_port_plain in H; [|by intros t' [= ->]].
      destruct (split_at _ (String c t)) as [a b] eqn:E. apply split_at_spec in E as [Hs Ha].
      rewrite Hs, all_chars_app in Hauth. apply andb_true_iff in Hauth as [Ha' Hb'].
      destruct b as [|c1 q]; injection H as <- <-.
      * split_and!; [|done..]. apply shape_plain; [exact Ha|].
        intros t' ->. by injection Hs as ->.
      * simpl in Hb'. apply andb_true_iff in Hb' as [_ Hq].
        split_and!; [|done..]. apply shape_plain; [exact Ha|].
        intros t' ->. by injection Hs as ->.
Qed.

(** ** The parser in two stages *)

(** What follows the scheme: the authority and what comes after it, or
    nothing for a non-special url without ["//"]. *)
Definition after_of (scheme rest : string) : option string :=
  if is_special scheme then Some (drop_slashes rest)
  else match rest with
       | String "/" (String "/" r) => Some r
       | _ => None
       end.

(** The url [new_URL] builds from the scheme and what follows it. *)
Definition url_after (scheme : string) (after : option string) : option URL :=
  match after with
  | None => Some (MkURL (scheme +:+ ":") "" "")
  | Some r =>
      let special := is_special scheme in
      let auth := after_last_at (fst (split_at (stopc special) r)) in
      let '(hn0, port) := split_host_port auth in
      let hn := if special then lower hn0 else hn0 in
      if negb (all_digits port) then None
      else if special && negb (String.eqb scheme "file") && String.eqb hn "" then None
      else
        let hst :=
          if String.eqb port "" || String.eqb port (default_port scheme) then hn
          else hn +:+ ":" +:+ port in
        Some (MkURL (scheme +:+ ":") hst hn)
  end.

Lemma new_URL_eq (input : string) :
  new_URL input =
    match scan_scheme input with
    | Some (String c0 _ as scheme0, rest) =>
        if negb (is_alpha c0) then None
        else url_after (lower scheme0) (after_of (lower scheme0) rest)
    | _ => None
    end.
Proof. unfold new_URL. by destruct (scan_scheme input) as [[[|c0 s0] rest]|]. Qed.

Lemma url_after_protocol (scheme : string) (a : option string) (u : URL) :
  url_after scheme a = Some u -> protocol u = scheme +:+ ":".
Proof.
  unfold url_after. destruct a as [r|]; [|by intros [= <-]].
  destruct (split_host_port _) as [hn0 port]. repeat case_match; by intros [= <-].
Qed.

Lemma all_chars_and (p q : ascii -> bool) (s : string) :
  all_chars (fun c => p c && q c) s = all_chars p s && all_chars q s.
Proof.
  induction s as [|c s IH]; simpl; [done|]. rewrite IH.
  by destruct (p c), (q c), (all_chars p s), (all_chars q s).
Qed.

(** The authority [url_after] extracts is made of host characters. *)
Lemma authority_chars (special : bool) (r : string) :
  all_chars (hostc special) (after_last_at (fst (split_at (stopc special) r))) = true.
Proof.
  destruct (split_at (stopc special) r) as [pre post] eqn:E. simpl.
  apply split_at_spec in E as [_ Hpre].
  destruct (after_last_at_spec pre) as [[p Hp] Hat].
  unfold hostc. rewrite all_chars_and, Hat, andb_true_r.
  rewrite Hp, all_chars_app in Hpre. by apply andb_true_iff in Hpre as [_ ->].
Qed.

(** The host [url_after] returns reads back as the same authority. *)
Lemma url_after_reparse (scheme r : string) (u : URL) :
  url_after scheme (Some r) = Some u ->
  all_chars (hostc (is_special scheme)) (host u) = true /\ url_after scheme (Some (host u)) = Some u.
Proof.
  unfold url_after. set (special := is_special scheme).
  pose proof (authority_chars special r) as Hauth.
  set (auth := after_last_at _) in *.
  destruct (split_host_port auth) as [hn0 port] eqn:Esplit.
  destruct (split_host_port_shape (hostc special) auth hn0 port Esplit (hostc_close special) Hauth)
    as (Hshape & Hhn0 & Hport).
  set (hn := if special then lower hn0 else hn0).
  assert (host_shape hn port /\ all_chars (hostc special) hn = true) as [Hshape' Hhn].
  { subst hn. destruct special; [|done]. split; [by apply shape_lower|].
    rewrite all_chars_lower; [done|apply hostc_lower]. }
  assert ((if special then lower hn else hn) = hn) as Hidem.
  { subst hn. destruct special; [apply lower_idem|done]. }
  destruct (all_digits port) eqn:Hd; [|discriminate].
  destruct (special && negb (String.eqb scheme "file") && String.eqb hn "") eqn:He; [discriminate|].
  intros [= <-]. simpl host.
  destruct (String.eqb port "" || String.eqb port (default_port scheme)) eqn:Ep.
  - split; [done|]. rewrite split_at_all; [|eapply all_chars_impl; [|exact Hhn]].
    2: { intros c Hc. by rewrite (hostc_not_stop _ _ Hc). }
    simpl fst. rewrite after_last_at_id; [|eapply all_chars_impl; [|exact Hhn]].
    2: { intros c Hc. by rewrite (hostc_not_at _ _ Hc). }
    rewrite (split_host_port_name hn port Hshape'). simpl. by rewrite Hidem, He.
  - assert (port <> "") as Hne by (intros ->; discriminate).
    change (hn +:+ ":" +:+ port) with (hn +:+ String ":" port).
    assert (all_chars (hostc special) (hn +:+ String ":" port) = true) as Hh
      by (rewrite all_chars_app, Hhn; simpl; by rewrite hostc_colon, Hport).
    split; [done|]. rewrite split_at_all; [|eapply all_chars_impl; [|exact Hh]].
    2: { intros c Hc. by rewrite (hostc_not_stop _ _ Hc). }
    simpl fst. rewrite after_last_at_id; [|eapply all_chars_impl; [|exact Hh]].
    2: { intros c Hc. by rewrite (hostc_not_at _ _ Hc). }
    rewrite (split_host_port_with_port hn port Hshape' Hne). simpl. by rewrite Hidem, Hd, He, Ep.
Qed.

Lemma after_of_siteUrl (scheme h : string) :
  all_chars (hostc (is_special scheme)) h = true -> after_of scheme ("//" +:+ h) = Some h.
Proof.
  unfold after_of. destruct (is_special scheme); [|done]. intros Hh.
  change ("//" +:+ h) with (String "/" (String "/" h)). simpl. by rewrite drop_slashes_id.
Qed.

(** C25. Round trip of the site key: for every url [new_URL] accepts,
    [`${protocol}//${host}`] parses back to the same [protocol], [host]
    and [hostname]. *)
Theorem new_URL_siteUrl_of (page : string) (u : URL) :
  new_URL page = Some u -> new_URL (siteUrl_of u) = Some u.
Proof.
  rewrite !new_URL_eq. intros H.
  destruct (scan_scheme page) as [[[|c0 s0] rest]|] eqn:Es; try discriminate.
  destruct (is_alpha c0) eqn:Ha; [|discriminate]. cbn [negb] in H.
  apply scan_scheme_spec in Es as [Hs _].
  assert (all_chars is_scheme_char (lower (String c0 s0)) = true) as Hs'
    by (rewrite all_chars_lower; [done|apply is_scheme_char_lower]).
  unfold siteUrl_of. rewrite (url_after_protocol _ _ _ H), string_app_assoc.
  change (":" +:+ "//" +:+ host u) with (String ":" ("//" +:+ host u)).
  rewrite scan_scheme_app by done. cbn [lower]. rewrite is_alpha_lower, Ha. cbn [negb].
  rewrite ?lower_idem, ?ascii_lower_idem.
  change (String (ascii_lower c0) (lower s0)) with (lower (String c0 s0)).
  destruct (after_of (lower (String c0 s0)) rest) as [r|] eqn:Ea.
  - destruct (url_after_reparse _ r u H) as [Hc Hr]. by rewrite (after_of_siteUrl _ _ Hc).
  - assert (is_special (lower (String c0 s0)) = false) as Sp
      by (unfold after_of in Ea; by destruct (is_special _)).
    injection H as <-. simpl host. unfold after_of, url_after. rewrite Sp. reflexivity.
Qed.

End Origin.

Module OriginScenarios.
Import Origin.

Definition page_b : string := "http://User@A.Test:8080/index.php?q=1".
Definition url_b : URL := MkURL "http:" "a.test:8080" "a.test".

Lemma new_URL_siteUrl_of_witness : new_URL page_b = Some url_b /\ new_URL "http://a.test:8080" = Some url_b.
Proof. split; [reflexivity|]. exact (new_URL_siteUrl_of page_b url_b eq_refl). Defined.

End OriginScenarios.
