(* ===== verification/Background.v ===== *)
(** * The service worker, [src/background.js]

    [Module Background] translates the worker function by function:
    [ICON_PATHS] (lines 6-22), [getModeForSite] (29-33), [setModeForSite]
    (40-42), [detectCookieMode] (49-64), [refreshIcon] (71-93) and the two
    listeners (98-102, 105-122).  The callbacks the code writes inline are
    named where a theorem must refer to them ([checkDebugCookie],
    [setStoredIcon], [recheck], [correctIcon]); [refreshIcon] is built
    from them exactly as the code nests them.

    The theorems: detection resolves in one or two cookie reads with the
    profile marker taking precedence ([detectCookieMode_spec]); under every
    interleaving of the browser's requests a reconciliation pass leaves the
    stored mode equal to the observed one ([refreshIcon_heals]) and never
    touches cookies ([refreshIcon_cookies_untouched]); the first-come,
    first-served execution implements the abstract reconciler
    ([refreshIcon_refines]); and an interleaving exists in which the stale
    paint lands after the corrected one ([refreshIcon_stale_paint]). *)

From S2P Require Import Prelude Mode Url Browser.

Module Background.

Local Open Scope xdq_scope.

(** [ICON_PATHS[key]]: [undefined] for a key that is not a mode. *)
Definition ICON_PATHS (key : string) : option icon_paths :=
  if String.eqb key "off" then
    Some (IconPaths "icons/bug-gray-16.png" "icons/bug-gray-48.png" "icons/bug-gray-128.png")
  else if String.eqb key "debug" then
    Some (IconPaths "icons/bug-green-16.png" "icons/bug-green-48.png" "icons/bug-green-128.png")
  else if String.eqb key "profile" then
    Some (IconPaths "icons/bug-purple-16.png" "icons/bug-purple-48.png" "icons/bug-purple-128.png")
  else None.

(** [chrome.storage.local.get(siteUrl, items => callback(items[siteUrl] || "off"))] *)
Definition getModeForSite (siteUrl : string) (callback : string -> prog) : prog :=
  StorageGet siteUrl (fun item => callback (item || "off")).

Definition setModeForSite (siteUrl mode : string) : prog :=
  StorageSet siteUrl mode Done.

(** [c?.value === "1"] *)
Definition is_one (c : option cookie) : bool :=
  match c with
  | Some ck => String.eqb (cookie_value ck) "1"
  | None => false
  end.

(** The inner callback of [detectCookieMode]: "Then check for debug cookie". *)
Definition checkDebugCookie (callback : string -> prog) (dbg : option cookie) : prog :=
  if is_one dbg then callback "debug" else callback "off".

Definition detectCookieMode (siteUrl : string) (callback : string -> prog) : prog :=
  CookieGet siteUrl "XDEBUG_PROFILE" (fun prof =>
    if is_one prof then callback "profile"
    else CookieGet siteUrl "XDEBUG_SESSION" (checkDebugCookie callback)).

(** "1) Immediately set stored icon (avoids flicker)" *)
Definition setStoredIcon (tabId : nat) (storedMode : string) : prog :=
  SetIcon tabId (ICON_PATHS storedMode) Done.

(** "2) Then double-check cookies and correct if needed": the comparison. *)
Definition correctIcon (tabId : nat) (siteUrl actualMode storedMode : string) : prog :=
  if negb (String.eqb actualMode storedMode) then
    Par (setModeForSite siteUrl actualMode) (SetIcon tabId (ICON_PATHS actualMode) Done)
  else Done.

Definition recheck (tabId : nat) (siteUrl actualMode : string) : prog :=
  getModeForSite siteUrl (correctIcon tabId siteUrl actualMode).

Definition refreshIcon (tabId : nat) (pageUrl : string) : prog :=
  if negb (startsWith pageUrl "http") then SetIcon tabId (ICON_PATHS "off") Done
  else match new_URL pageUrl with
       | None => Throw TypeError
       | Some u =>
           let siteUrl := siteUrl_of u in
           Par (getModeForSite siteUrl (setStoredIcon tabId))
               (detectCookieMode siteUrl (recheck tabId siteUrl))
       end.

(** [if (tab.url)]: a present, non-empty url. *)
Definition truthy_url (url : option string) : option string :=
  match url with
  | Some s => if String.eqb s "" then None else Some s
  | None => None
  end.

(** [chrome.tabs.onActivated]: [tab] is [undefined] when the tab is gone,
    and [tab.url] then throws. *)
Definition onActivated (tabId : nat) : prog :=
  TabsGet tabId (fun tab =>
    match tab with
    | None => Throw TypeError
    | Some t =>
        match truthy_url (tab_url t) with
        | Some url => refreshIcon tabId url
        | None => Done
        end
    end).

(** [changeInfo] of [chrome.tabs.onUpdated], the field the code reads. *)
Record change_info := ChangeInfo { status : option string }.

Definition onUpdated (tabId : nat) (changeInfo : change_info) (t : tab) : prog :=
  match truthy_url (tab_url t) with
  | None => Done
  | Some url =>
      match new_URL url with
      | None => Throw TypeError
      | Some u =>
          let siteUrl := siteUrl_of u in
          Par (if bool_decide (status changeInfo = Some "loading")
               then getModeForSite siteUrl (fun mode => SetIcon tabId (ICON_PATHS mode) Done)
               else Done)
              (if bool_decide (status changeInfo = Some "complete")
               then refreshIcon tabId url
               else Done)
      end
  end.

(** ** Specifications *)

(** The mode the cookies of a site say: the profile marker first. *)
Definition cookie_mode (w : world) (siteUrl : string) : mode :=
  if is_one (cookies_get (cookies w) siteUrl "XDEBUG_PROFILE") then Profile
  else if is_one (cookies_get (cookies w) siteUrl "XDEBUG_SESSION") then Debug
  else Off.

(** The mode [getModeForSite] reports for a site. *)
Definition stored_mode (w : world) (siteUrl : string) : string :=
  storage w !! siteUrl || "off".

(** The abstract reconciler: the authoritative mode and whether the
    stored one had to be corrected. *)
Definition reconcile (stored observed : mode) : mode * bool :=
  if decide (stored = observed) then (stored, false) else (observed, true).

End Background.

(** ** The preference store *)

Module Preference.
Import Background.

(** C24. Round trip of the preference store: once [setModeForSite s v] has
    been resolved, [getModeForSite s' k] calls back with [v] for the same
    site, or with "off" when [v] is the empty string, which [||] treats
    as absent, and with the mode stored before for any other site. *)
Theorem getModeForSite_setModeForSite (w : world) (s v s' : string) (k : string -> prog) :
  (fire (fire w (setModeForSite s v)).1 (getModeForSite s' k)).2 =
    k (if bool_decide (s' = s) then (if String.eqb v "" then "off" else v) else stored_mode w s').
Proof.
  unfold setModeForSite, getModeForSite, storage_set, log. simpl.
  case_bool_decide as E.
  - subst. rewrite lookup_insert_eq. simpl. by destruct (String.eqb v "").
  - by rewrite lookup_insert_ne.
Qed.

End Preference.

(** ** Detection *)

Module Detection.
Import Background.

Lemma cookie_mode_cases (w : world) (s : string) :
  (is_one (cookies_get (cookies w) s "XDEBUG_PROFILE") = true /\ cookie_mode w s = Profile) \/
  (is_one (cookies_get (cookies w) s "XDEBUG_PROFILE") = false /\
   is_one (cookies_get (cookies w) s "XDEBUG_SESSION") = true /\ cookie_mode w s = Debug) \/
  (is_one (cookies_get (cookies w) s "XDEBUG_PROFILE") = false /\
   is_one (cookies_get (cookies w) s "XDEBUG_SESSION") = false /\ cookie_mode w s = Off).
Proof.
  unfold cookie_mode.
  destruct (is_one (cookies_get (cookies w) s "XDEBUG_PROFILE")), (is_one (cookies_get (cookies w) s "XDEBUG_SESSION")); tauto.
Qed.

(** The observed mode depends on the cookie jar only. *)
Lemma cookie_mode_jar (w w' : world) (s : string) :
  cookies w = cookies w' -> cookie_mode w s = cookie_mode w' s.
Proof. intros H. unfold cookie_mode. by rewrite H. Qed.

(** C1. [detectCookieMode] resolves in one cookie read when the profile
    marker is set and in two otherwise, changes nothing, and calls its
    callback with the mode of the cookies, the profile marker taking
    precedence over the debug marker and both over "off". *)
Theorem detectCookieMode_spec (w : world) (siteUrl : string) (callback : string -> prog) :
  fire_chain (if bool_decide (cookie_mode w siteUrl = Profile) then 1 else 2)
    w (detectCookieMode siteUrl callback)
  = (w, callback (mode_str (cookie_mode w siteUrl))).
Proof.
  destruct (cookie_mode_cases w siteUrl) as [(H1 & H) | [(H1 & H2 & H) | (H1 & H2 & H)]];
    rewrite H; simpl; rewrite H1; simpl; [done|unfold checkDebugCookie; by rewrite H2..].
Qed.

End Detection.


(** ** Reconciliation under every interleaving *)

Module Reconciliation.
Import Background Detection.

Section Pass.
(** The world the passes start in; its cookies are never changed. *)
Variable w0 : world.

(** The requests of a pass that remain before the stored mode of site
    [s] is settled. *)
Inductive pending (s : string) : prog -> Prop :=
| pd_profile tabId : pending s (detectCookieMode s (recheck tabId s))
| pd_session tabId :
    is_one (cookies_get (cookies w0) s "XDEBUG_PROFILE") = false ->
    pending s (CookieGet s "XDEBUG_SESSION" (checkDebugCookie (recheck tabId s)))
| pd_compare tabId : pending s (recheck tabId s (mode_str (cookie_mode w0 s)))
| pd_write : pending s (setModeForSite s (mode_str (cookie_mode w0 s))).

(** Every request a reconciliation pass can leave pending. *)
Inductive refresh_req : prog -> Prop :=
| rq_pending s r : pending s r -> refresh_req r
| rq_stored tabId s : refresh_req (getModeForSite s (setStoredIcon tabId))
| rq_icon tabId p : refresh_req (SetIcon tabId p Done).

(** Resolving one request keeps the cookies and the cookie trace,
    leaves requests of a pass, and changes a stored mode only to the
    observed one. *)
Definition resolve_ok (w : world) (r : prog) : Prop :=
  let '(w', ks) := resolve w r in
  cookies w' = cookies w0 /\
  cookie_effects (trace w') = cookie_effects (trace w) /\
  Forall refresh_req ks /\
  forall s, stored_mode w' s = stored_mode w s \/ stored_mode w' s = mode_str (cookie_mode w0 s).

(** Resolving a pending request of site [s] leaves one, or settles [s]. *)
Definition progress (s : string) (w : world) (r : prog) : Prop :=
  let '(w', ks) := resolve w r in
  Exists (pending s) ks \/ stored_mode w' s = mode_str (cookie_mode w0 s).

Lemma stored_mode_set (w : world) (key s : string) (m : mode) :
  stored_mode (storage_set key (mode_str m) w) s =
    if decide (key = s) then mode_str m else stored_mode w s.
Proof.
  unfold stored_mode. rewrite storage_set_lookup. case_decide; [|done].
  apply or_default_some, mode_str_neq_empty.
Qed.

Lemma compare_pending (w : world) (s : string) (t : nat) (m : mode) :
  cookies w = cookies w0 -> cookie_mode w s = m -> pending s (recheck t s (mode_str m)).
Proof. intros Hc <-. rewrite (cookie_mode_jar w w0 s Hc). apply pd_compare. Qed.

Lemma session_pending (w : world) (s : string) (t : nat) :
  cookies w = cookies w0 -> is_one (cookies_get (cookies w) s "XDEBUG_PROFILE") = false ->
  pending s (CookieGet s "XDEBUG_SESSION" (checkDebugCookie (recheck t s))).
Proof. intros Hc H. apply pd_session. by rewrite <- Hc. Qed.

(** A read that leaves one pending request of site [s]. *)
Lemma read_one (w : world) (s : string) (r x : prog) :
  cookies w = cookies w0 -> resolve w r = (w, [x]) -> pending s x ->
  resolve_ok w r /\ progress s w r.
Proof.
  intros Hc Hr Hx. unfold resolve_ok, progress. rewrite Hr.
  split; [split_and!; [done|done|repeat constructor; by econstructor|by left]|].
  left. by constructor.
Qed.

Lemma pending_resolve (w : world) (s : string) (r : prog) :
  cookies w = cookies w0 -> pending s r -> resolve_ok w r /\ progress s w r.
Proof.
  intros Hc Hp. destruct Hp as [t|t Hp0|t|].
  - destruct (cookie_mode_cases w s) as [(H1 & H) | [(H1 & _ & H) | (H1 & _ & H)]];
      (eapply read_one; [done|unfold resolve, detectCookieMode at 1; cbn [fire]; by rewrite H1|]);
      [exact (compare_pending w s t Profile Hc H)|by apply (session_pending w)..].
  - destruct (cookie_mode_cases w s) as [(H1 & H) | [(H1 & H2 & H) | (H1 & H2 & H)]].
    + rewrite Hc in H1. congruence.
    + eapply read_one; [done|unfold resolve, checkDebugCookie at 1; cbn [fire]; by rewrite H2|].
      exact (compare_pending w s t Debug Hc H).
    + eapply read_one; [done|unfold resolve, checkDebugCookie at 1; cbn [fire]; by rewrite H2|].
      exact (compare_pending w s t Off Hc H).
  - unfold resolve_ok, progress, resolve, recheck, getModeForSite. cbn [fire].
    change (storage w !! s || "off")%xdq with (stored_mode w s). unfold correctIcon.
    (* either nothing to correct, or a write of the observed mode and a paint *)
    destruct (String.eqb_spec (mode_str (cookie_mode w0 s)) (stored_mode w s)) as [E|E]; simpl;
      first
        [ solve [split; [split_and!; [done|done|constructor|by left]|by right]]
        | split; [split_and!; [done|done|constructor; [apply rq_pending with s, pd_write|repeat constructor]
                               |by left]
                 |left; constructor; apply pd_write] ].
  - unfold resolve_ok, progress, resolve. cbn [fire]. simpl.
    rewrite stored_mode_set, decide_True by done.
    split; [split_and!; [done|by apply cookie_effects_log|constructor|]|by right].
    intros s0. rewrite stored_mode_set. case_decide; subst; [by right|by left].
Qed.

Lemma refresh_resolve_ok (w : world) (r : prog) :
  cookies w = cookies w0 -> refresh_req r -> resolve_ok w r.
Proof.
  intros Hc Hr. destruct Hr as [s r Hp|t s|t p].
  - by apply (pending_resolve w s).
  - unfold resolve_ok, resolve, getModeForSite. simpl.
    split_and!; [done|done|repeat constructor|by left].
  - unfold resolve_ok, resolve. simpl. destruct p; simpl;
      (split_and!; [done| |constructor|by left]); [by apply cookie_effects_log|done].
Qed.

(** The invariant of a set of passes, for the stored mode of site [s]. *)
Definition healing (s : string) (c : config) : Prop :=
  Forall refresh_req c.2 /\ cookies c.1 = cookies w0 /\
  cookie_effects (trace c.1) = cookie_effects (trace w0) /\
  (Exists (pending s) c.2 \/ stored_mode c.1 s = mode_str (cookie_mode w0 s)).

Lemma healing_steps (s : string) (c c' : config) :
  steps c c' -> healing s c -> healing s c'.
Proof.
  apply steps_invariant.
  - intros w l l' Hp (HF & Hc & Ht & Hx). unfold healing; simpl in *. by rewrite <- Hp.
  - intros w r l (HF & Hc & Ht & Hx). simpl in *. apply Forall_cons in HF as [Hr HF].
    pose proof (refresh_resolve_ok w r Hc Hr) as Hok. unfold resolve_ok in Hok.
    destruct (resolve w r) as [w' ks] eqn:E. destruct Hok as (Hc' & Ht' & HF' & Hs').
    unfold healing; simpl. split_and!; [by apply Forall_app|done|congruence|].
    destruct Hx as [Hx|Hs]; [apply Exists_cons in Hx as [Hp|Hl]|].
    + pose proof (proj2 (pending_resolve w s r Hc Hp)) as Hg. unfold progress in Hg.
      rewrite E in Hg. destruct Hg as [Hg|Hg]; [left; apply Exists_app; by right|by right].
    + left. apply Exists_app. by left.
    + right. destruct (Hs' s); congruence.
Qed.

(** A set of passes that has finished has settled every site it had
    pending. *)
Lemma healing_done (s : string) (c : config) (w : world) :
  healing s c -> steps c (w, []) -> stored_mode w s = mode_str (cookie_mode w0 s).
Proof.
  intros Hh Hs. destruct (healing_steps s _ _ Hs Hh) as (_ & _ & _ & [Hx|Hx]); [|done].
  inversion Hx.
Qed.
End Pass.

Lemma refreshIcon_start (w0 : world) (tabId : nat) (pageUrl : string) (u : URL) :
  startsWith pageUrl "http" = true -> new_URL pageUrl = Some u ->
  start w0 (refreshIcon tabId pageUrl) =
    (w0, [getModeForSite (siteUrl_of u) (setStoredIcon tabId);
          detectCookieMode (siteUrl_of u) (recheck tabId (siteUrl_of u))]).
Proof. intros H1 H2. unfold start, refreshIcon. by rewrite H1, H2. Qed.

Ltac run_refresh H1 H2 Hm :=
  repeat (cbn -[is_one cookies_get or_default]; try unfold checkDebugCookie; rewrite ?H1, ?H2, ?Hm).

(** C4. The first-come, first-served execution of a pass finishes within
    seven resolutions and implements the abstract reconciler: with the
    stored mode [m0] and the observed mode [m], the stored mode and the
    tab's icon end as [fst (reconcile m0 m)], and exactly one storage write
    (of the observed mode) happens, when [snd (reconcile m0 m)] says the
    stored mode was corrected. *)
Theorem refreshIcon_refines (w0 : world) (tabId : nat) (pageUrl : string) (u : URL) (m0 : mode) :
  startsWith pageUrl "http" = true -> new_URL pageUrl = Some u ->
  stored_mode w0 (siteUrl_of u) = mode_str m0 ->
  let c := run 7 (start w0 (refreshIcon tabId pageUrl)) in
  let r := reconcile m0 (cookie_mode w0 (siteUrl_of u)) in
  c.2 = [] /\ stored_mode c.1 (siteUrl_of u) = mode_str r.1 /\
  icons c.1 !! tabId = ICON_PATHS (mode_str r.1) /\
  storage_writes (trace c.1) =
    storage_writes (trace w0) ++ (if r.2 then [EStorageSet (siteUrl_of u) (mode_str r.1)] else []).
Proof.
  intros Hp Hu Hm c r. subst c r. rewrite (refreshIcon_start w0 tabId pageUrl u Hp Hu).
  unfold stored_mode in *. revert Hm. generalize (siteUrl_of u) as s. intros s Hm.
  destruct (cookie_mode_cases w0 s) as [(H1 & H) | [(H1 & H2 & H) | (H1 & H2 & H)]]; [pose proof H1 as H2|..]; rewrite H;
    destruct m0; run_refresh H1 H2 Hm;
    idtac.
  all: split; [reflexivity|].
  all: split; [rewrite ?lookup_insert_eq; reflexivity|].
  all: split; [rewrite ?lookup_insert_eq; reflexivity|].
  all: unfold storage_writes; rewrite ?List.filter_app; simpl; by rewrite ?app_nil_r.
Qed.

(** The requests a pass starts with, for every kind of page url. *)
Lemma refreshIcon_start_reqs (w0 : world) (tabId : nat) (pageUrl : string) :
  Forall (refresh_req w0) (start w0 (refreshIcon tabId pageUrl)).2.
Proof.
  unfold start, refreshIcon. destruct (startsWith pageUrl "http"); simpl; [|repeat constructor].
  destruct (new_URL pageUrl) as [u|]; simpl; [|constructor].
  constructor; [apply rq_stored|constructor; [eapply rq_pending, pd_profile|constructor]].
Qed.

(** A pass on an http page settles the stored mode of its site in every
    execution that finishes. *)
Lemma refreshIcon_settles (w0 w : world) (tabId : nat) (pageUrl : string) (u : URL) :
  startsWith pageUrl "http" = true -> new_URL pageUrl = Some u ->
  steps (start w0 (refreshIcon tabId pageUrl)) (w, []) ->
  stored_mode w (siteUrl_of u) = mode_str (cookie_mode w0 (siteUrl_of u)).
Proof.
  intros Hp Hu Hs. rewrite (refreshIcon_start w0 tabId pageUrl u Hp Hu) in Hs.
  eapply (healing_done w0 (siteUrl_of u)); [|exact Hs].
  split_and!; [|done|done|left; apply Exists_cons; right; apply Exists_cons; left; apply pd_profile].
  pose proof (refreshIcon_start_reqs w0 tabId pageUrl) as HF.
  by rewrite (refreshIcon_start w0 tabId pageUrl u Hp Hu) in HF.
Qed.

(** C2. Self-healing: in every interleaving of the browser's requests, a
    reconciliation pass on an http page that finishes leaves the mode that
    [getModeForSite] reports for the site equal to the mode its cookies
    say when the pass started. *)
Theorem refreshIcon_heals (w0 w : world) (tabId : nat) (pageUrl : string) (u : URL) :
  startsWith pageUrl "http" = true -> new_URL pageUrl = Some u ->
  steps (start w0 (refreshIcon tabId pageUrl)) (w, []) ->
  stored_mode w (siteUrl_of u) = mode_str (cookie_mode w0 (siteUrl_of u)).
Proof. exact (refreshIcon_settles w0 w tabId pageUrl u). Qed.

(** C3. A reconciliation pass never writes a cookie: in every state of
    every interleaving the cookie jar is the one the pass started with
    and no cookie set or remove has been issued. *)
Theorem refreshIcon_cookies_untouched (w0 : world) (c : config) (tabId : nat) (pageUrl : string) :
  steps (start w0 (refreshIcon tabId pageUrl)) c ->
  cookies c.1 = cookies w0 /\ cookie_effects (trace c.1) = cookie_effects (trace w0).
Proof.
  intros Hs.
  refine (proj2 (steps_forall (refresh_req w0)
           (fun w => cookies w = cookies w0 /\ cookie_effects (trace w) = cookie_effects (trace w0))
           _ _ _ Hs (refreshIcon_start_reqs w0 tabId pageUrl) _)).
  - intros w r Hr [Hc Ht]. pose proof (refresh_resolve_ok w0 w r Hc Hr) as Hok.
    unfold resolve_ok in Hok. destruct (resolve w r) as [w' ks].
    destruct Hok as (Hc' & Ht' & HF & _). simpl. split_and!; [done|congruence|done].
  - unfold start. split; [apply issue_state|]. apply issue_cookie_effects.
Qed.

End Reconciliation.

(** ** Concrete runs and the interleavings the code allows *)

Module Scenarios.
Import Background Detection Reconciliation.

Definition page_a : string := "http://a.test/index.php".
Definition site_a : string := "http://a.test".
Definition url_a : URL := MkURL "http:" "a.test" "a.test".

(** Stored "off" (absent), debug marker set: the drift of the spec. *)
Definition w_drift : world :=
  World ∅ {[("a.test", "XDEBUG_SESSION") := "1"]} ∅ [] 0 [].

(** Stored "debug", with the session cookie an IDE sets: [PHPSTORM]. *)
Definition w_ide : world :=
  World {[site_a := "debug"]} {[("a.test", "XDEBUG_SESSION") := "PHPSTORM"]} ∅ [] 0 [].

Lemma refreshIcon_heals_witness :
  startsWith page_a "http" = true /\ new_URL page_a = Some url_a /\
  stored_mode (run 7 (start w_drift (refreshIcon 1 page_a))).1 site_a =
    mode_str (cookie_mode w_drift site_a).
Proof.
  split_and!; [reflexivity|reflexivity|].
  apply (refreshIcon_heals w_drift _ 1 page_a url_a); [reflexivity|reflexivity|].
  assert (E : run 7 (start w_drift (refreshIcon 1 page_a)) =
              ((run 7 (start w_drift (refreshIcon 1 page_a))).1, [])) by (vm_compute; reflexivity).
  rewrite <- E. apply run_steps.
Defined.

Lemma refreshIcon_cookies_untouched_witness :
  cookies (run 7 (start w_drift (refreshIcon 1 page_a))).1 = cookies w_drift.
Proof.
  apply (refreshIcon_cookies_untouched w_drift _ 1 page_a). apply run_steps.
Defined.

Lemma refreshIcon_refines_witness :
  stored_mode w_drift site_a = mode_str Off /\
  (run 7 (start w_drift (refreshIcon 1 page_a))).2 = [] /\
  stored_mode (run 7 (start w_drift (refreshIcon 1 page_a))).1 site_a = "debug".
Proof.
  split_and!; [reflexivity| |].
  - apply (refreshIcon_refines w_drift 1 page_a url_a Off); reflexivity.
  - apply (refreshIcon_refines w_drift 1 page_a url_a Off); reflexivity.
Defined.

(** C8. The two paints of a pass are not ordered: there is an
    interleaving in which the stale paint of the stored mode lands after
    the corrected paint, so that the pass finishes with the storage
    corrected to "debug" and the tab's icon showing "off". *)
Theorem refreshIcon_stale_paint :
  exists w, steps (start w_drift (refreshIcon 1 page_a)) (w, []) /\
    stored_mode w site_a = "debug" /\ icons w !! 1 = ICON_PATHS "off".
Proof.
  eexists. split; [apply (run_sched_steps [0; 0; 1; 1; 1; 1; 0]); vm_compute; reflexivity|].
  vm_compute. split; reflexivity.
Qed.

(** C10. The markers must equal "1": a session cookie holding an IDE key,
    as IDEs set it, reads as "off", and every execution of a pass then
    overwrites the stored "debug" with "off". *)
Theorem refreshIcon_ide_key_reset (w : world) :
  steps (start w_ide (refreshIcon 1 page_a)) (w, []) -> stored_mode w site_a = "off".
Proof.
  intros Hs. exact (refreshIcon_settles w_ide w 1 page_a url_a eq_refl eq_refl Hs).
Qed.

Lemma refreshIcon_ide_key_reset_witness :
  stored_mode w_ide site_a = "debug" /\
  stored_mode (run 7 (start w_ide (refreshIcon 1 page_a))).1 site_a = "off".
Proof.
  split; [reflexivity|].
  apply refreshIcon_ide_key_reset.
  assert (E : run 7 (start w_ide (refreshIcon 1 page_a)) =
              ((run 7 (start w_ide (refreshIcon 1 page_a))).1, [])) by (vm_compute; reflexivity).
  rewrite <- E. apply run_steps.
Defined.

End Scenarios.
