(* ===== verification/Popup.v ===== *)
(** * The popup, [src/popup.js]

    [Module Popup] translates the popup: its own copy of [ICON_PATHS]
    (lines 6-22), [applyMode] (lines 37-68) and the wiring of the three
    buttons (lines 25-28).  [applyMode] queries the active tab, gives up
    (closing the popup) on a page whose url does not start with "http",
    then issues, without waiting for any of them, the removal of both
    marker cookies and the setting of the chosen one, and chains the icon
    paint, the storage write and the reload through callbacks.

    The theorems: the first-come, first-served execution performs the
    transaction the spec describes ([applyMode_fifo]); under every
    interleaving a finished transaction has stored the mode, reloaded the
    tab once, painted the icon and removed the markers of the other modes
    ([applyMode_outcome]); pages that are not http are left alone
    ([applyMode_scheme_guard]); a tab without a url makes the callback
    throw ([applyMode_no_url]); and the unordered cookie calls let the
    chosen marker be lost or be written after the reload
    ([applyMode_lost_marker], [applyMode_reload_before_cookie]). *)

From S2P Require Import Prelude Mode Url Browser.

Module Popup.

(** The popup's copy of the table of [src/background.js]. *)
Definition ICON_PATHS (key : string) : option icon_paths :=
  if String.eqb key "off" then
    Some (IconPaths "icons/bug-gray-16.png" "icons/bug-gray-48.png" "icons/bug-gray-128.png")
  else if String.eqb key "debug" then
    Some (IconPaths "icons/bug-green-16.png" "icons/bug-green-48.png" "icons/bug-green-128.png")
  else if String.eqb key "profile" then
    Some (IconPaths "icons/bug-purple-16.png" "icons/bug-purple-48.png" "icons/bug-purple-128.png")
  else None.

(** "2) Set the selected cookie" *)
Definition setSelectedCookie (siteUrl mode : string) : prog :=
  if String.eqb mode "debug" then CookieSet siteUrl "XDEBUG_SESSION" "1" Done
  else if String.eqb mode "profile" then CookieSet siteUrl "XDEBUG_PROFILE" "1" Done
  else Done.

(** "3) Update UI and storage, then reload" *)
Definition updateAndReload (tabId : nat) (siteUrl mode : string) : prog :=
  SetIcon tabId (ICON_PATHS mode)
    (StorageSet siteUrl mode (Par (Reload tabId Done) (WindowClose Done))).

(** The body of the [chrome.tabs.query] callback. *)
Definition applyToTabs (mode : string) (tabs : list tab) : prog :=
  match head tabs with
  | None => WindowClose Done                      (* !undefined *)
  | Some currentTab =>
      match tab_url currentTab with
      | None => Throw TypeError                    (* undefined.startsWith *)
      | Some url =>
          if negb (startsWith url "http") then WindowClose Done
          else match new_URL url with
               | None => Throw TypeError
               | Some u =>
                   let siteUrl := siteUrl_of u in
                   forEach ["XDEBUG_SESSION"; "XDEBUG_PROFILE"]
                     (fun name => CookieRemove siteUrl name Done)
                     (Par (setSelectedCookie siteUrl mode)
                          (updateAndReload (tab_id currentTab) siteUrl mode))
               end
      end
  end.

Definition applyMode (mode : string) : prog := TabsQuery (applyToTabs mode).

(** The buttons: one per mode, whose id is the mode. *)
Definition buttons : list string := ["off"; "debug"; "profile"].

(** The click handler of the button with id [id], if there is one. *)
Definition onClick (id : string) : option prog :=
  if bool_decide (id ∈ buttons) then Some (applyMode id) else None.

(** The marker cookie a mode sets. *)
Definition marker (m : mode) : option string :=
  match m with
  | Off => None
  | Debug => Some "XDEBUG_SESSION"
  | Profile => Some "XDEBUG_PROFILE"
  end.

(** The marker cookies [applyMode] clears. *)
Definition names : list string := ["XDEBUG_SESSION"; "XDEBUG_PROFILE"].

End Popup.

(** ** The transaction under every interleaving *)

Module Transaction.
Import Popup.

Section Transaction.
Variables (w0 : world) (m : mode) (ti : nat) (s : string).

Inductive cookie_op : prog -> Prop :=
| co_remove n : n ∈ names -> cookie_op (CookieRemove s n Done)
| co_set n : marker m = Some n -> cookie_op (CookieSet s n "1" Done).

Inductive stage := SIcon | SStore | SReload | SDone.

Definition stage_reqs (st : stage) : list prog :=
  match st with
  | SIcon => [updateAndReload ti s (mode_str m)]
  | SStore => [StorageSet s (mode_str m) (Par (Reload ti Done) (WindowClose Done))]
  | SReload => [Reload ti Done]
  | SDone => []
  end.

Definition stored (st : stage) : bool := match st with SReload | SDone => true | _ => false end.

Definition stage_facts (st : stage) (w : world) : Prop :=
  storage w = (if stored st then <[s:=mode_str m]> (storage w0) else storage w0) /\
  icons w = (if st is SIcon then icons w0 else
             match ICON_PATHS (mode_str m) with Some p => <[ti:=p]> (icons w0) | None => icons w0 end) /\
  reloads w = (if st is SDone then S (reloads w0) else reloads w0) /\
  (stored st = true -> closed w = true).

Definition tx_inv (c : config) : Prop :=
  exists ops st, c.2 ≡ₚ ops ++ stage_reqs st /\ Forall cookie_op ops /\ stage_facts st c.1 /\
    forall n, n ∈ names -> marker m <> Some n ->
      CookieRemove s n Done ∈ ops \/ cookies_get (cookies c.1) s n = None.

Lemma cookie_op_resolve (w : world) (r : prog) :
  cookie_op r -> (resolve w r).2 = [] /\
    storage (resolve w r).1 = storage w /\ icons (resolve w r).1 = icons w /\
    reloads (resolve w r).1 = reloads w /\ closed (resolve w r).1 = closed w /\
    forall n, marker m <> Some n ->
      (cookies_get (cookies (resolve w r).1) s n = cookies_get (cookies w) s n \/
       cookies_get (cookies (resolve w r).1) s n = None) /\
      (r = CookieRemove s n Done -> cookies_get (cookies (resolve w r).1) s n = None).
Proof.
  intros [n Hn|n Hn]; unfold resolve; simpl.
  - destruct (cookies_remove_frame s n w) as (A & B & C & D). split_and!; try done.
    intros n' Hm. rewrite cookies_get_remove.
    split; [case_decide; auto|intros H; injection H as ->; by rewrite decide_True].
  - destruct (cookies_set_frame s n "1" w) as (A & B & C & D). split_and!; try done.
    intros n' Hm. rewrite cookies_get_set.
    split; [case_decide; subst; [congruence|auto]|discriminate].
Qed.

(** The chain of callbacks advances one stage. *)
Lemma stage_advance (st : stage) (r : prog) (w : world) :
  stage_facts st w -> r ∈ stage_reqs st ->
  exists st', resolve w r = ((resolve w r).1, stage_reqs st') /\
    stage_facts st' (resolve w r).1 /\ cookies (resolve w r).1 = cookies w.
Proof.
  intros (F1 & F2 & F3 & F4) Hr.
  destruct st; simpl in Hr; apply list_elem_of_singleton in Hr as ->
    || (apply elem_of_nil in Hr; contradiction); cbn in F1, F2, F3, F4.
  - exists SStore. unfold resolve, updateAndReload. simpl.
    destruct (ICON_PATHS (mode_str m)) as [p|] eqn:Ei; [|by destruct m].
    unfold stage_facts. simpl. rewrite Ei, reloads_log. simpl. rewrite F2.
    unfold reloads in *. split_and!; try done; simpl; lia.
  - exists SReload. unfold resolve. simpl. unfold stage_facts, storage_set. simpl.
    rewrite !reloads_log, !closed_log. simpl. rewrite F1, F2.
    unfold reloads in *. split_and!; try done; try (simpl; lia).
  - exists SDone. unfold resolve. simpl. unfold stage_facts. simpl.
    rewrite reloads_log, closed_log. simpl. rewrite F1, F2.
    unfold reloads in *. split_and!; try done; try (simpl; lia); intros _; by rewrite F4.
Qed.

Lemma tx_inv_resolve (w : world) (r : prog) (l : list prog) :
  tx_inv (w, r :: l) -> tx_inv ((resolve w r).1, l ++ (resolve w r).2).
Proof.
  intros (ops & st & Hp & HF & Hf & Hc). simpl in *.
  assert (Hin : r ∈ ops ++ stage_reqs st) by (rewrite <- Hp; apply list_elem_of_here).
  apply elem_of_app in Hin as [Hin|Hin].
  - apply elem_of_Permutation in Hin as [ops' Hops].
    rewrite Hops in Hp, HF. apply Forall_cons in HF as [Hr HF].
    destruct (cookie_op_resolve w r Hr) as (Hks & A & B & C & D & E). rewrite Hks, app_nil_r.
    exists ops', st. split_and!.
    + by apply (Permutation_cons_inv (a := r)).
    + done.
    + destruct Hf as (F1 & F2 & F3 & F4). unfold stage_facts; simpl. split_and!; [congruence..|intros Hs; rewrite D; auto].
    + intros n Hn Hm. simpl. destruct (E n Hm) as [E1 E2]. destruct (Hc n Hn Hm) as [H|H].
      * rewrite Hops in H. apply elem_of_cons in H as [H|H].
        -- right. by apply E2.
        -- left. exact H.
      * right. destruct E1 as [E1|E1]; congruence.
  - destruct (stage_advance st r w Hf Hin) as (st' & Hr & Hf' & Hck).
    exists ops, st'. rewrite Hr. simpl. split_and!; [|done|done|].
    + assert (Hs : stage_reqs st = [r]).
      { destruct st; simpl in Hin |- *; apply list_elem_of_singleton in Hin as ->
          || (apply elem_of_nil in Hin; contradiction); done. }
      assert (Hl : l ≡ₚ ops).
      { rewrite Hs in Hp. apply (Permutation_cons_inv (a := r)). rewrite Hp.
        symmetry. apply Permutation_cons_append. }
      by rewrite Hl.
    + intros n Hn Hm. rewrite Hck. by apply Hc.
Qed.
Lemma tx_steps (c c' : config) : steps c c' -> tx_inv c -> tx_inv c'.
Proof.
  apply steps_invariant.
  - intros w l l' Hp (ops & st & Hl & HF & Hf & Hc). exists ops, st. simpl in *.
    split_and!; [|done|done|done]. by rewrite <- Hp.
  - intros w r l H. by apply tx_inv_resolve.
Qed.

(** A finished transaction has gone through every stage and run every
    cookie call. *)
Lemma tx_done (w : world) :
  tx_inv (w, []) -> stage_facts SDone w /\
    forall n, n ∈ names -> marker m <> Some n -> cookies_get (cookies w) s n = None.
Proof.
  intros (ops & st & Hp & HF & Hf & Hc). simpl in *.
  symmetry in Hp. apply Permutation_nil_r, app_eq_nil in Hp as [-> Hs].
  destruct st; try discriminate. split; [done|].
  intros n Hn Hm. destruct (Hc n Hn Hm) as [H|H]; [by apply elem_of_nil in H|done].
Qed.
End Transaction.

(** The cookie calls [applyMode] makes for a mode, in call order. *)
Definition marker_ops (s : string) (m : mode) : list prog :=
  match marker m with Some n => [CookieSet s n "1" Done] | None => [] end.

Lemma applyMode_issue (w0 : world) (m : mode) (t : tab) (rest : list tab) (page : string) (u : URL) :
  tabs_query_active w0 = t :: rest -> tab_url t = Some page ->
  startsWith page "http" = true -> new_URL page = Some u ->
  resolve w0 (applyMode (mode_str m)) =
    (w0, [CookieRemove (siteUrl_of u) "XDEBUG_SESSION" Done;
          CookieRemove (siteUrl_of u) "XDEBUG_PROFILE" Done] ++ marker_ops (siteUrl_of u) m ++
         [updateAndReload (tab_id t) (siteUrl_of u) (mode_str m)]).
Proof.
  intros Hq Ht Hp Hu. unfold resolve, applyMode. cbn [fire]. rewrite Hq. unfold applyToTabs. simpl.
  rewrite Ht, Hp, Hu. by destruct m.
Qed.

(** Every state an execution of a transaction on an http tab reaches is
    its start or satisfies the stage invariant. *)
Lemma tx_reach (w0 : world) (m : mode) (t : tab) (rest : list tab) (page : string) (u : URL)
    (c : config) :
  tabs_query_active w0 = t :: rest -> tab_url t = Some page ->
  startsWith page "http" = true -> new_URL page = Some u ->
  steps (start w0 (applyMode (mode_str m))) c ->
  c = (w0, [applyMode (mode_str m)]) \/ tx_inv w0 m (tab_id t) (siteUrl_of u) c.
Proof.
  intros Hq Ht Hp Hu Hs.
  change (start w0 (applyMode (mode_str m))) with (w0, [applyMode (mode_str m)]) in Hs.
  apply steps_single in Hs as [->|Hs]; [by left|right].
  rewrite (applyMode_issue w0 m t rest page u Hq Ht Hp Hu) in Hs.
  eapply tx_steps; [exact Hs|]. exists ([CookieRemove (siteUrl_of u) "XDEBUG_SESSION" Done;
          CookieRemove (siteUrl_of u) "XDEBUG_PROFILE" Done] ++ marker_ops (siteUrl_of u) m), SIcon.
  simpl. split_and!.
  - done.
  - repeat constructor; try (apply co_remove; set_solver).
    destruct m; repeat constructor.
  - done.
  - intros n Hn Hm. left. set_solver.
Qed.

(** C5. Under every interleaving of its requests, a transaction on an
    http tab that finishes has stored the mode for the site (and nothing
    else), painted the tab's icon with it, reloaded the tab exactly once,
    closed the popup, and removed the marker cookie of every other mode. *)
Theorem applyMode_outcome (w0 w : world) (m : mode) (t : tab) (rest : list tab)
    (page : string) (u : URL) :
  tabs_query_active w0 = t :: rest -> tab_url t = Some page ->
  startsWith page "http" = true -> new_URL page = Some u ->
  steps (start w0 (applyMode (mode_str m))) (w, []) ->
  storage w = <[siteUrl_of u := mode_str m]> (storage w0) /\
  icons w !! tab_id t = ICON_PATHS (mode_str m) /\
  reloads w = S (reloads w0) /\ closed w = true /\
  (forall n, n ∈ names -> marker m <> Some n -> cookies_get (cookies w) (siteUrl_of u) n = None).
Proof.
  intros Hq Ht Hp Hu Hs.
  destruct (tx_done w0 m (tab_id t) (siteUrl_of u) w) as ((F1 & F2 & F3 & F4) & Hc).
  - by destruct (tx_reach w0 m t rest page u _ Hq Ht Hp Hu Hs).
  - simpl in *. split_and!; [done| |done|by apply F4|done].
    rewrite F2. destruct m; simpl; by rewrite lookup_insert_eq.
Qed.

(** C30. The callback chain orders paint, persist and reload: in every
    state any interleaving reaches, if the tab has been reloaded then the
    mode has already been stored for the site, the icon painted and the
    popup closed.  (The cookie calls are not so ordered:
    [applyMode_reload_before_cookie].) *)
Theorem applyMode_reload_after_persist (w0 : world) (m : mode) (t : tab) (rest : list tab)
    (page : string) (u : URL) (c : config) :
  tabs_query_active w0 = t :: rest -> tab_url t = Some page ->
  startsWith page "http" = true -> new_URL page = Some u ->
  steps (start w0 (applyMode (mode_str m))) c -> reloads c.1 <> reloads w0 ->
  storage c.1 = <[siteUrl_of u := mode_str m]> (storage w0) /\
  icons c.1 !! tab_id t = ICON_PATHS (mode_str m) /\ closed c.1 = true.
Proof.
  intros Hq Ht Hp Hu Hs Hr.
  destruct (tx_reach w0 m t rest page u c Hq Ht Hp Hu Hs) as [->|(ops & st & _ & _ & Hf & _)];
    [done|].
  destruct Hf as (F1 & F2 & F3 & F4). destruct st; simpl in F3; try done.
  split_and!; [done| |by apply F4]. rewrite F2. destruct m; simpl; by rewrite lookup_insert_eq.
Qed.

End Transaction.

(** ** The first-come, first-served execution *)

Module Sequential.
Import Popup.

(** The cookie jar the spec's transaction leaves for host [h]: both
    markers removed, the chosen one set to "1". *)
Definition marker_jar (h : string) (m : mode) (jar : gmap (string * string) string)
  : gmap (string * string) string :=
  let cleared := delete (h, "XDEBUG_PROFILE") (delete (h, "XDEBUG_SESSION") jar) in
  match marker m with Some n => <[(h, n):="1"]> cleared | None => cleared end.

Ltac run_popup Hq Ht Hp Hu Hh :=
  repeat (cbn -[startsWith new_URL cookie_host tabs_query_active];
          try unfold cookies_remove, cookies_set; rewrite ?Hq, ?Ht, ?Hp, ?Hu, ?Hh).

Lemma applyMode_run (w0 : world) (m : mode) (t : tab) (rest : list tab)
    (page : string) (u : URL) (h : string) :
  tabs_query_active w0 = t :: rest -> tab_url t = Some page ->
  startsWith page "http" = true -> new_URL page = Some u ->
  cookie_host (siteUrl_of u) = Some h ->
  let c := run 7 (start w0 (applyMode (mode_str m))) in
  c.2 = [] /\ cookies c.1 = marker_jar h m (cookies w0) /\
  storage c.1 = <[siteUrl_of u := mode_str m]> (storage w0) /\
  icons c.1 !! tab_id t = ICON_PATHS (mode_str m) /\
  reloads c.1 = S (reloads w0) /\ closed c.1 = true /\
  tabs_query_active c.1 = tabs_query_active w0.
Proof.
  intros Hq Ht Hp Hu Hh c. subst c.
  change (start w0 (applyMode (mode_str m))) with (w0, [applyMode (mode_str m)]).
  destruct m; run_popup Hq Ht Hp Hu Hh;
    (split_and!; [done|done|done|by rewrite lookup_insert_eq| | |done]).
  all: try (unfold reloads; rewrite !List.filter_app, !length_app; simpl; lia).
  all: unfold closed; apply bool_decide_eq_true_2; simpl; set_solver.
Qed.

(** C6. The first-come, first-served execution of a transaction on an
    http tab finishes within seven resolutions and does what the spec's
    transaction describes: both markers removed and the chosen one set to
    "1" on the site's host, the mode stored for the site, the icon painted,
    one reload, the popup closed. *)
Theorem applyMode_fifo (w0 : world) (m : mode) (t : tab) (rest : list tab)
    (page : string) (u : URL) (h : string) :
  tabs_query_active w0 = t :: rest -> tab_url t = Some page ->
  startsWith page "http" = true -> new_URL page = Some u ->
  cookie_host (siteUrl_of u) = Some h ->
  let c := run 7 (start w0 (applyMode (mode_str m))) in
  c.2 = [] /\ cookies c.1 = marker_jar h m (cookies w0) /\
  storage c.1 = <[siteUrl_of u := mode_str m]> (storage w0) /\
  icons c.1 !! tab_id t = ICON_PATHS (mode_str m) /\
  reloads c.1 = S (reloads w0) /\ closed c.1 = true.
Proof.
  intros Hq Ht Hp Hu Hh c.
  destruct (applyMode_run w0 m t rest page u h Hq Ht Hp Hu Hh) as (A & B & C & D & E & F & _).
  split_and!; assumption.
Qed.

Lemma marker_jar_idem (h : string) (m : mode) (jar : gmap (string * string) string) :
  marker_jar h m (marker_jar h m jar) = marker_jar h m jar.
Proof.
  apply map_eq. intros k. unfold marker_jar.
  destruct m; simpl; rewrite ?lookup_insert, ?lookup_delete;
    repeat case_decide; simplify_eq; rewrite ?lookup_insert, ?lookup_delete;
    repeat case_decide; simplify_eq; done.
Qed.

(** C12. Applying the same mode twice in a row (first come, first served)
    leaves the same cookie jar and the same storage as applying it once. *)
Theorem applyMode_idempotent (w0 : world) (m : mode) (t : tab) (rest : list tab)
    (page : string) (u : URL) (h : string) :
  tabs_query_active w0 = t :: rest -> tab_url t = Some page ->
  startsWith page "http" = true -> new_URL page = Some u ->
  cookie_host (siteUrl_of u) = Some h ->
  let w1 := (run 7 (start w0 (applyMode (mode_str m)))).1 in
  let w2 := (run 7 (start w1 (applyMode (mode_str m)))).1 in
  cookies w2 = cookies w1 /\ storage w2 = storage w1.
Proof.
  intros Hq Ht Hp Hu Hh w1 w2.
  destruct (applyMode_run w0 m t rest page u h Hq Ht Hp Hu Hh) as (_ & B1 & C1 & _ & _ & _ & G1).
  fold w1 in B1, C1, G1. rewrite <- G1 in Hq.
  destruct (applyMode_run w1 m t rest page u h Hq Ht Hp Hu Hh) as (_ & B2 & C2 & _).
  fold w2 in B2, C2. split.
  - by rewrite B2, B1, marker_jar_idem.
  - by rewrite C2, C1, insert_insert_eq.
Qed.

End Sequential.

(** ** The guard and the error path *)

Module Guards.
Import Popup.

Lemma applyMode_start (w0 : world) (mode : string) :
  start w0 (applyMode mode) = (w0, [applyMode mode]).
Proof. reflexivity. Qed.

(** A query callback that issues no request: the only executions are the
    one that has not resolved the query and the one that has. *)
Lemma applyMode_one_shot (w0 w1 : world) (mode : string) (c : config) :
  resolve w0 (applyMode mode) = (w1, []) ->
  steps (start w0 (applyMode mode)) c -> c = (w0, [applyMode mode]) \/ c = (w1, []).
Proof.
  intros E Hs. rewrite applyMode_start in Hs.
  apply steps_single in Hs as [->|Hs]; [by left|right].
  rewrite E in Hs. by apply steps_nil in Hs.
Qed.

(** C7. Scheme guard: on a tab whose url does not start with "http" the
    transaction only closes the popup; no cookie, storage, icon or reload
    request is ever made, in any execution. *)
Theorem applyMode_scheme_guard (w0 : world) (mode : string) (t : tab) (rest : list tab)
    (page : string) (c : config) :
  tabs_query_active w0 = t :: rest -> tab_url t = Some page ->
  startsWith page "http" = false ->
  steps (start w0 (applyMode mode)) c ->
  c = (w0, [applyMode mode]) \/ c = (log EClose w0, []).
Proof.
  intros Hq Ht Hp. apply applyMode_one_shot.
  unfold resolve, applyMode. cbn [fire]. rewrite Hq. unfold applyToTabs. simpl.
  by rewrite Ht, Hp.
Qed.

(** C11. A tab whose url is [undefined] (no permission for the page):
    [currentTab?.url.startsWith] throws a [TypeError] in the callback, so
    the popup is neither closed nor anything else done. *)
Theorem applyMode_no_url (w0 : world) (mode : string) (t : tab) (rest : list tab) (c : config) :
  tabs_query_active w0 = t :: rest -> tab_url t = None ->
  steps (start w0 (applyMode mode)) c ->
  c = (w0, [applyMode mode]) \/ c = (log (EUncaught TypeError) w0, []).
Proof.
  intros Hq Ht. apply applyMode_one_shot.
  unfold resolve, applyMode. cbn [fire]. rewrite Hq. unfold applyToTabs. simpl.
  by rewrite Ht.
Qed.

End Guards.

(** ** Concrete runs and the interleavings the code allows *)

Module Scenarios.
Import Popup Transaction Sequential Guards.

Definition page_a : string := "http://a.test/index.php".
Definition url_a : URL := MkURL "http:" "a.test" "a.test".
Definition tab_a : tab := Tab 1 (Some page_a) true 0.

(** One window with one active http tab, nothing stored, no cookies. *)
Definition w_popup : world := World ∅ ∅ ∅ [tab_a] 0 [].

Definition tab_chrome : tab := Tab 2 (Some "chrome://extensions/") true 0.
Definition w_chrome : world := World ∅ ∅ ∅ [tab_chrome] 0 [].

Definition tab_nourl : tab := Tab 3 None true 0.
Definition w_nourl : world := World ∅ ∅ ∅ [tab_nourl] 0 [].

Lemma fifo_finishes :
  run 7 (start w_popup (applyMode (mode_str Debug))) =
    ((run 7 (start w_popup (applyMode (mode_str Debug)))).1, []).
Proof. vm_compute. reflexivity. Qed.

Lemma applyMode_outcome_witness :
  tabs_query_active w_popup = [tab_a] /\ new_URL page_a = Some url_a /\
  reloads (run 7 (start w_popup (applyMode (mode_str Debug)))).1 = 1.
Proof.
  split_and!; [reflexivity|reflexivity|].
  destruct (applyMode_outcome w_popup (run 7 (start w_popup (applyMode (mode_str Debug)))).1
              Debug tab_a [] page_a url_a eq_refl eq_refl eq_refl eq_refl) as (_ & _ & R & _).
  - rewrite <- fifo_finishes. apply run_steps.
  - exact R.
Defined.

Lemma applyMode_reload_after_persist_witness :
  closed (run 7 (start w_popup (applyMode (mode_str Debug)))).1 = true.
Proof.
  destruct (applyMode_reload_after_persist w_popup Debug tab_a [] page_a url_a
              (run 7 (start w_popup (applyMode (mode_str Debug))))
              eq_refl eq_refl eq_refl eq_refl (run_steps 7 _)) as (_ & _ & H);
    [vm_compute; discriminate|exact H].
Defined.

Lemma applyMode_fifo_witness :
  cookie_host (siteUrl_of url_a) = Some "a.test" /\
  cookies (run 7 (start w_popup (applyMode (mode_str Debug)))).1 =
    marker_jar "a.test" Debug (cookies w_popup).
Proof.
  split; [reflexivity|].
  apply (applyMode_fifo w_popup Debug tab_a [] page_a url_a "a.test"); reflexivity.
Defined.

Lemma applyMode_idempotent_witness :
  cookie_host (siteUrl_of url_a) = Some "a.test" /\
  storage (run 7 (start (run 7 (start w_popup (applyMode (mode_str Profile)))).1
                     (applyMode (mode_str Profile)))).1 =
  storage (run 7 (start w_popup (applyMode (mode_str Profile)))).1.
Proof.
  split; [reflexivity|].
  apply (applyMode_idempotent w_popup Profile tab_a [] page_a url_a "a.test"); reflexivity.
Defined.

Lemma applyMode_scheme_guard_witness :
  startsWith "chrome://extensions/" "http" = false /\
  run 3 (start w_chrome (applyMode "debug")) = (log EClose w_chrome, []).
Proof.
  split; [reflexivity|].
  destruct (applyMode_scheme_guard w_chrome "debug" tab_chrome [] "chrome://extensions/"
              (run 3 (start w_chrome (applyMode "debug"))) eq_refl eq_refl eq_refl (run_steps 3 _))
    as [H|H]; [|exact H].
  apply (f_equal (fun c : config => List.length c.2)) in H. vm_compute in H. discriminate.
Defined.

Lemma applyMode_no_url_witness :
  run 3 (start w_nourl (applyMode "off")) = (log (EUncaught TypeError) w_nourl, []) /\
  closed (run 3 (start w_nourl (applyMode "off"))).1 = false.
Proof.
  destruct (applyMode_no_url w_nourl "off" tab_nourl []
              (run 3 (start w_nourl (applyMode "off"))) eq_refl eq_refl (run_steps 3 _))
    as [H|H].
  { apply (f_equal (fun c : config => List.length c.2)) in H. vm_compute in H. discriminate. }
  split; [exact H|]. rewrite H. reflexivity.
Defined.

(** C9. The removal and the setting of the debug marker are issued
    without waiting, so an interleaving resolves the removal last: the
    transaction finishes with "debug" stored and the page reloaded but no
    debug cookie. *)
Theorem applyMode_lost_marker :
  exists w, steps (start w_popup (applyMode "debug")) (w, []) /\
    cookies w !! ("a.test", "XDEBUG_SESSION") = None /\
    storage w !! "http://a.test" = Some "debug" /\ reloads w = 1.
Proof.
  eexists. split; [apply (run_sched_steps [0; 2; 0; 0; 0; 0; 0]); vm_compute; reflexivity|].
  vm_compute. split_and!; reflexivity.
Qed.

(** C13. Nothing orders the cookie calls before the reload: an
    interleaving reloads the tab before the debug marker is set. *)
Theorem applyMode_reload_before_cookie :
  exists w, steps (start w_popup (applyMode "debug")) (w, []) /\
    exists i j, index_of (EReload 1) (trace w) = Some i /\
      index_of (ECookieSet "a.test" "XDEBUG_SESSION" "1") (trace w) = Some j /\ i < j.
Proof.
  eexists. split; [apply (run_sched_steps [0; 3; 3; 3; 0; 0; 0]); vm_compute; reflexivity|].
  vm_compute. eexists _, _. split_and!; [reflexivity|reflexivity|lia].
Qed.

End Scenarios.
