(* ===== verification/Router.v ===== *)
(** * The tab listeners of [src/background.js]

    [chrome.tabs.onActivated] (lines 98-102) looks the tab up and runs a
    reconciliation pass on its url; [chrome.tabs.onUpdated] (lines
    105-122) paints the stored mode when a page starts loading and runs a
    pass when it has finished.  Their definitions are
    [Background.onActivated] and [Background.onUpdated]; this file proves
    what each event does, under every interleaving, by reducing the
    listener's execution to that of [refreshIcon] or of a single storage
    read and paint. *)

From S2P Require Import Prelude Mode Url Browser Background.

Module Router.
Import Background Detection Reconciliation.

(** A "complete" event on a tab with a url runs exactly a pass on it. *)
Lemma onUpdated_complete_start (w0 : world) (tabId : nat) (t : tab) (page : string) (u : URL) :
  truthy_url (tab_url t) = Some page -> new_URL page = Some u ->
  start w0 (onUpdated tabId (ChangeInfo (Some "complete")) t) = start w0 (refreshIcon tabId page).
Proof.
  intros Ht Hu. unfold start, onUpdated. rewrite Ht, Hu.
  rewrite bool_decide_false by discriminate. rewrite bool_decide_true by done.
  cbn [issue]. by destruct (issue w0 (refreshIcon tabId page)).
Qed.

(** An activated tab that still exists with a url: its lookup resolves to
    the start of a pass. *)
Lemma onActivated_resolve (w0 : world) (tabId : nat) (t : tab) (page : string) :
  tabs_get w0 tabId = Some t -> truthy_url (tab_url t) = Some page ->
  resolve w0 (onActivated tabId) = start w0 (refreshIcon tabId page).
Proof. intros Hg Ht. unfold resolve, onActivated. cbn [fire]. by rewrite Hg, Ht. Qed.

(** C14. A "complete" event on an http tab runs a full reconciliation
    pass: every execution that finishes leaves the stored mode of the site
    equal to the mode its cookies say. *)
Theorem onUpdated_complete_heals (w0 w : world) (tabId : nat) (t : tab) (page : string) (u : URL) :
  truthy_url (tab_url t) = Some page -> startsWith page "http" = true -> new_URL page = Some u ->
  steps (start w0 (onUpdated tabId (ChangeInfo (Some "complete")) t)) (w, []) ->
  stored_mode w (siteUrl_of u) = mode_str (cookie_mode w0 (siteUrl_of u)).
Proof.
  intros Ht Hp Hu Hs. rewrite (onUpdated_complete_start w0 tabId t page u Ht Hu) in Hs.
  exact (refreshIcon_settles w0 w tabId page u Hp Hu Hs).
Qed.

(** C15. Activating a tab that shows an http page runs the same pass on
    its url: every execution that finishes has healed the stored mode. *)
Theorem onActivated_heals (w0 w : world) (tabId : nat) (t : tab) (page : string) (u : URL) :
  tabs_get w0 tabId = Some t -> truthy_url (tab_url t) = Some page ->
  startsWith page "http" = true -> new_URL page = Some u ->
  steps (start w0 (onActivated tabId)) (w, []) ->
  stored_mode w (siteUrl_of u) = mode_str (cookie_mode w0 (siteUrl_of u)).
Proof.
  intros Hg Ht Hp Hu Hs.
  change (start w0 (onActivated tabId)) with (w0, [onActivated tabId]) in Hs.
  apply steps_single_done in Hs.
  rewrite (onActivated_resolve w0 tabId t page Hg Ht) in Hs.
  exact (refreshIcon_settles w0 w tabId page u Hp Hu Hs).
Qed.

(** What a "loading" event does, in every finished execution. *)
Lemma loading_paint (w0 w : world) (tabId : nat) (t : tab)
    (page : string) (u : URL) :
  truthy_url (tab_url t) = Some page -> new_URL page = Some u ->
  steps (start w0 (onUpdated tabId (ChangeInfo (Some "loading")) t)) (w, []) ->
  storage w = storage w0 /\ cookies w = cookies w0 /\
  icons w = match ICON_PATHS (stored_mode w0 (siteUrl_of u)) with
            | Some p => <[tabId:=p]> (icons w0)
            | None => icons w0
            end.
Proof.
  intros Ht Hu Hs. unfold start, onUpdated in Hs. rewrite Ht, Hu in Hs.
  rewrite bool_decide_true in Hs by done. rewrite bool_decide_false in Hs by discriminate.
  cbn [issue app] in Hs. apply steps_single_done in Hs. apply steps_single_done in Hs.
  apply steps_nil in Hs. injection Hs as ->. unfold stored_mode, set_icon.
  destruct (ICON_PATHS _); done.
Qed.

(** C16. A "loading" event only paints: every execution that finishes
    leaves storage and cookies as they were and the tab's icon showing the
    mode stored under the url's site key, whatever the url's scheme. *)
Theorem onUpdated_loading_paints_stored (w0 w : world) (tabId : nat) (t : tab)
    (page : string) (u : URL) :
  truthy_url (tab_url t) = Some page -> new_URL page = Some u ->
  steps (start w0 (onUpdated tabId (ChangeInfo (Some "loading")) t)) (w, []) ->
  storage w = storage w0 /\ cookies w = cookies w0 /\
  icons w = match ICON_PATHS (stored_mode w0 (siteUrl_of u)) with
            | Some p => <[tabId:=p]> (icons w0)
            | None => icons w0
            end.
Proof. exact (loading_paint w0 w tabId t page u). Qed.

(** C17. Activating a tab that has gone away: [chrome.tabs.get] calls back
    with [undefined] and [tab.url] throws, so nothing else happens. *)
Theorem onActivated_vanished_tab (w0 : world) (tabId : nat) (c : config) :
  tabs_get w0 tabId = None ->
  steps (start w0 (onActivated tabId)) c ->
  c = (w0, [onActivated tabId]) \/ c = (log (EUncaught TypeError) w0, []).
Proof.
  intros Hg Hs. change (start w0 (onActivated tabId)) with (w0, [onActivated tabId]) in Hs.
  apply steps_single in Hs as [->|Hs]; [by left|right].
  unfold resolve, onActivated in Hs. cbn [fire] in Hs. rewrite Hg in Hs.
  by apply steps_nil in Hs.
Qed.

End Router.

Module RouterScenarios.
Import Background Detection Reconciliation Scenarios Router.

Definition tab_1 : tab := Tab 1 (Some page_a) true 0.

(** The drift world with tab 1 showing [page_a]. *)
Definition w_tab : world := World ∅ {[("a.test", "XDEBUG_SESSION") := "1"]} ∅ [tab_1] 0 [].

Lemma onUpdated_complete_heals_witness :
  stored_mode (run 8 (start w_tab (onUpdated 1 (ChangeInfo (Some "complete")) tab_1))).1 site_a =
    mode_str Debug.
Proof.
  apply (onUpdated_complete_heals w_tab _ 1 tab_1 page_a url_a); [reflexivity..|].
  assert (E : run 8 (start w_tab (onUpdated 1 (ChangeInfo (Some "complete")) tab_1)) =
              ((run 8 (start w_tab (onUpdated 1 (ChangeInfo (Some "complete")) tab_1))).1, []))
    by (vm_compute; reflexivity).
  rewrite <- E. apply run_steps.
Defined.

Lemma onActivated_heals_witness :
  stored_mode (run 8 (start w_tab (onActivated 1))).1 site_a = mode_str Debug.
Proof.
  apply (onActivated_heals w_tab _ 1 tab_1 page_a url_a); [reflexivity..|].
  assert (E : run 8 (start w_tab (onActivated 1)) = ((run 8 (start w_tab (onActivated 1))).1, []))
    by (vm_compute; reflexivity).
  rewrite <- E. apply run_steps.
Defined.

Lemma onUpdated_loading_paints_stored_witness :
  icons (run 2 (start w_tab (onUpdated 1 (ChangeInfo (Some "loading")) tab_1))).1 !! 1 =
    ICON_PATHS "off".
Proof.
  destruct (onUpdated_loading_paints_stored w_tab
              (run 2 (start w_tab (onUpdated 1 (ChangeInfo (Some "loading")) tab_1))).1
              1 tab_1 page_a url_a eq_refl eq_refl) as (_ & _ & ->).
  - assert (E : run 2 (start w_tab (onUpdated 1 (ChangeInfo (Some "loading")) tab_1)) =
                ((run 2 (start w_tab (onUpdated 1 (ChangeInfo (Some "loading")) tab_1))).1, []))
      by (vm_compute; reflexivity).
    rewrite <- E. apply run_steps.
  - vm_compute. reflexivity.
Defined.

Lemma onActivated_vanished_tab_witness :
  run 2 (start w_tab (onActivated 7)) = (log (EUncaught TypeError) w_tab, []).
Proof.
  destruct (onActivated_vanished_tab w_tab 7 (run 2 (start w_tab (onActivated 7)))
              eq_refl (run_steps 2 _)) as [H|H]; [|exact H].
  apply (f_equal (fun c : config => List.length c.2)) in H. vm_compute in H. discriminate.
Defined.

End RouterScenarios.
