(* ===== verification/Interplay.v ===== *)
(** * The two scripts together in the browser

    The extension as a whole: at any moment the browser either resolves a
    pending request ([Browser.step]) or delivers an event whose listener
    then runs its synchronous code ([sys_step]).  The events are the tab
    activations and updates of [src/background.js] and the button clicks
    of [src/popup.js] ([dispatch]).

    [http_writes p] says that every storage write [p] can ever make goes
    to a key starting with "http" and stores a mode string; every listener
    satisfies it, so the browser's storage holds only such entries in
    every reachable state ([storage_keys_http], [storage_values_modes]),
    which is what makes the unguarded "loading" paint show "off" on other
    pages ([loading_non_http_paints_off]) and every paint of a stored
    mode find an icon ([stored_icon_defined]).  When the requests in
    flight all belong to passes consistent with the cookies, the passes
    converge ([overlapping_passes_converge]).  The file also shows the
    race the spec leaves open: a reconciliation pass that read the cookies
    before a popup transaction overwrites the user's choice
    ([popup_races_reconciliation]). *)

From S2P Require Import Prelude Mode Url Browser Background Popup Router.

Module System.

Inductive event :=
| TabActivated (tabId : nat)
| TabUpdated (tabId : nat) (changeInfo : Background.change_info) (t : tab)
| PopupClick (id : string).

Definition dispatch (e : event) : prog :=
  match e with
  | TabActivated tabId => Background.onActivated tabId
  | TabUpdated tabId ci t => Background.onUpdated tabId ci t
  | PopupClick id => match Popup.onClick id with Some p => p | None => Done end
  end.

Inductive sys_step : config -> config -> Prop :=
| sys_resolve c c' : step c c' -> sys_step c c'
| sys_event w pool e :
    sys_step (w, pool) ((issue w (dispatch e)).1, pool ++ (issue w (dispatch e)).2).

Definition sys_steps : config -> config -> Prop := rtc sys_step.

(** An executable plan of the system: deliver an event or resolve the
    pending request at a position. *)
Inductive action := Deliver (e : event) | Resolve (i : nat).

Definition sys_fire (a : action) (c : config) : option config :=
  match a with
  | Deliver e => Some ((issue c.1 (dispatch e)).1, c.2 ++ (issue c.1 (dispatch e)).2)
  | Resolve i => fire_at i c
  end.

Fixpoint sys_run (plan : list action) (c : config) : option config :=
  match plan with
  | [] => Some c
  | a :: rest => match sys_fire a c with Some c' => sys_run rest c' | None => None end
  end.

(** Every storage write of a request tree goes to an "http" key and
    stores a mode string. *)
Inductive http_writes : prog -> Prop :=
| hw_done : http_writes Done
| hw_throw e : http_writes (Throw e)
| hw_par p q : http_writes p -> http_writes q -> http_writes (Par p q)
| hw_close k : http_writes k -> http_writes (WindowClose k)
| hw_sget key k : (forall v, http_writes (k v)) -> http_writes (StorageGet key k)
| hw_sset key v k :
    startsWith key "http" = true -> is_mode_str v = true -> http_writes k ->
    http_writes (StorageSet key v k)
| hw_cget url n k : (forall c, http_writes (k c)) -> http_writes (CookieGet url n k)
| hw_cset url n v k : http_writes k -> http_writes (CookieSet url n v k)
| hw_crem url n k : http_writes k -> http_writes (CookieRemove url n k)
| hw_icon t p k : http_writes k -> http_writes (SetIcon t p k)
| hw_tget t k : (forall x, http_writes (k x)) -> http_writes (TabsGet t k)
| hw_tquery k : (forall l, http_writes (k l)) -> http_writes (TabsQuery k)
| hw_reload t k : http_writes k -> http_writes (Reload t k).

#[export] Hint Constructors http_writes : xdq.

(** Storage holds only mode strings under "http" keys. *)
Definition keys_http (st : gmap string string) : Prop :=
  forall k v, st !! k = Some v -> startsWith k "http" = true /\ is_mode_str v = true.

(** The ids the popup's buttons carry are mode strings. *)
Lemma buttons_modes (id : string) : id ∈ Popup.buttons -> is_mode_str id = true.
Proof. rewrite list_elem_of_In. intros [<-|[<-|[<-|[]]]]; reflexivity. Qed.

(** Case analysis through the code of a listener. *)
Ltac http_writes_tac :=
  repeat first
    [ progress intros
    | assumption
    | match goal with
      | H1 : startsWith ?p "http" = true, H2 : new_URL ?p = Some ?u
        |- startsWith (siteUrl_of ?u) "http" = true => exact (siteUrl_of_http p u H1 H2)
      | H1 : negb (startsWith ?p "http") = false |- _ => apply negb_false_iff in H1
      | |- http_writes (if ?b then _ else _) => destruct b eqn:?
      | |- http_writes (match ?x with _ => _ end) => destruct x eqn:?
      end
    | constructor ].

Lemma refreshIcon_http (tabId : nat) (pageUrl : string) :
  http_writes (Background.refreshIcon tabId pageUrl).
Proof.
  unfold Background.refreshIcon, Background.getModeForSite, Background.setStoredIcon,
    Background.detectCookieMode, Background.checkDebugCookie, Background.recheck,
    Background.correctIcon, Background.setModeForSite.
  http_writes_tac.
Qed.

Lemma dispatch_http (e : event) : http_writes (dispatch e).
Proof.
  destruct e as [tabId|tabId ci t|id]; simpl.
  - unfold Background.onActivated. constructor. intros [t|]; [|constructor].
    destruct (Background.truthy_url (tab_url t)); [apply refreshIcon_http|constructor].
  - unfold Background.onUpdated.
    destruct (Background.truthy_url (tab_url t)) as [url|]; [|constructor].
    destruct (new_URL url); constructor; [|destruct (bool_decide _); [apply refreshIcon_http|constructor]].
    destruct (bool_decide _); [|constructor]. unfold Background.getModeForSite. http_writes_tac.
  - unfold Popup.onClick. destruct (bool_decide _) eqn:Hb; [|constructor].
    apply bool_decide_eq_true, buttons_modes in Hb.
    unfold Popup.applyMode, Popup.applyToTabs, Popup.setSelectedCookie, Popup.updateAndReload, forEach.
    http_writes_tac.
Qed.

Lemma issue_http (w : world) (p : prog) : http_writes p -> Forall http_writes (issue w p).2.
Proof.
  intros Hp. revert w. induction Hp; intros w; simpl; try by repeat constructor.
  destruct (issue w p) as [w1 l1] eqn:E1. destruct (issue w1 q) as [w2 l2] eqn:E2. simpl.
  specialize (IHHp1 w). specialize (IHHp2 w1). rewrite E1 in IHHp1. rewrite E2 in IHHp2.
  by apply Forall_app.
Qed.

Lemma fire_http (w : world) (r : prog) : http_writes r -> http_writes (fire w r).2.
Proof. intros Hr. destruct Hr; simpl; by auto with xdq. Qed.

(** A resolution keeps storage to mode strings under "http" keys. *)
Lemma fire_keys (w : world) (r : prog) :
  http_writes r -> keys_http (storage w) -> keys_http (storage (fire w r).1).
Proof.
  intros Hr Hk. destruct Hr; simpl; try done.
  all: unfold storage_set, cookies_set, cookies_remove, set_icon; repeat case_match; try done.
  intros k' v' Hl. simpl in Hl. rewrite lookup_insert in Hl.
  case_decide; simplify_eq; [done|by eapply Hk].
Qed.

(** Any property of the browser's state that every request of the
    listeners and every piece of synchronous code preserves holds in every
    reachable state of the extension. *)
Section Reachable.
Variable Inv : world -> Prop.
Hypothesis Inv_fire : forall w r, http_writes r -> Inv w -> Inv (fire w r).1.
Hypothesis Inv_issue : forall w p, Inv w -> Inv (issue w p).1.

Definition sys_inv (c : config) : Prop := Forall http_writes c.2 /\ Inv c.1.

Lemma sys_inv_step (c c' : config) : sys_step c c' -> sys_inv c -> sys_inv c'.
Proof.
  intros [c1 c2 Hs|w pool e] Hi.
  - revert Hs Hi. apply step_invariant.
    + intros w l l' Hp [HF Hk]. split; [|done]. simpl in *. by rewrite <- Hp.
    + intros w r l [HF Hk]. simpl in *. apply Forall_cons in HF as [Hr HF]. unfold resolve.
      pose proof (fire_http w r Hr) as Hp. pose proof (Inv_fire w r Hr Hk) as Hw.
      destruct (fire w r) as [w1 p]. split; [apply Forall_app; split; [done|by apply issue_http]|].
      by apply Inv_issue.
  - destruct Hi as [HF Hk]. split; simpl in *; [|by apply Inv_issue].
    apply Forall_app. split; [done|]. apply issue_http, dispatch_http.
Qed.

Lemma sys_reach_inv (w0 w : world) (pool : list prog) :
  Inv w0 -> sys_steps (w0, []) (w, pool) -> Inv w.
Proof.
  intros Hk Hs. enough (sys_inv (w, pool)) as [_ H] by exact H.
  remember (w0, []) as c0 eqn:E. assert (sys_inv c0) as Hi by (subst; split; [constructor|done]).
  clear E Hk. induction Hs as [c|c1 c2 c3 H12 H23 IH]; [done|].
  apply IH. by eapply sys_inv_step.
Qed.
End Reachable.

Lemma sys_keys_http (w0 w : world) (pool : list prog) :
  keys_http (storage w0) -> sys_steps (w0, []) (w, pool) -> keys_http (storage w).
Proof.
  apply (sys_reach_inv (fun w => keys_http (storage w))); [apply fire_keys|].
  intros w1 p H. by rewrite (proj1 (issue_state w1 p)).
Qed.

Lemma sys_run_steps (plan : list action) (c c' : config) :
  sys_run plan c = Some c' -> sys_steps c c'.
Proof.
  revert c. induction plan as [|a rest IH]; intros c H; simpl in H.
  - injection H as <-. apply rtc_refl.
  - destruct (sys_fire a c) as [c1|] eqn:E; [|discriminate].
    eapply rtc_l; [|by apply IH]. destruct a as [e|i]; simpl in E.
    + injection E as <-. destruct c. apply sys_event.
    + apply sys_resolve. by econstructor.
Qed.

End System.

Module Extension.
Import System Background Router.

(** The mode a reachable state reports for any site is a mode string. *)
Lemma stored_mode_reachable (w0 w : world) (pool : list prog) (s : string) :
  keys_http (storage w0) -> sys_steps (w0, []) (w, pool) ->
  exists m, stored_mode w s = mode_str m.
Proof.
  intros Hk Hs. unfold stored_mode. destruct (storage w !! s) as [v|] eqn:E; [|by exists Off].
  destruct (sys_keys_http w0 w pool Hk Hs s v E) as [_ Hv].
  apply is_mode_str_spec in Hv as [m ->]. exists m. by apply or_default_some, mode_str_neq_empty.
Qed.

(** C18. In every state the extension can reach from a storage holding
    only mode strings under "http" keys, whatever events the browser delivers and in whatever
    order it resolves the requests, every key of storage starts with
    "http": no handler ever writes the mode of another kind of page. *)
Theorem storage_keys_http (w0 w : world) (pool : list prog) (k v : string) :
  keys_http (storage w0) -> sys_steps (w0, []) (w, pool) ->
  storage w !! k = Some v -> startsWith k "http" = true.
Proof. intros Hk Hs Hl. exact (proj1 (sys_keys_http w0 w pool Hk Hs k v Hl)). Qed.

(** C22. In every reachable state storage holds only mode strings: the
    reconciler writes the literal it observed and the popup the id of a
    button, and the buttons' ids are the three modes. *)
Theorem storage_values_modes (w0 w : world) (pool : list prog) (k v : string) :
  keys_http (storage w0) -> sys_steps (w0, []) (w, pool) ->
  storage w !! k = Some v -> is_mode_str v = true.
Proof. intros Hk Hs Hl. exact (proj2 (sys_keys_http w0 w pool Hk Hs k v Hl)). Qed.

(** C23. Every paint of a stored mode has an icon: in every reachable
    state, [ICON_PATHS] is defined on the mode [getModeForSite] reports
    for any site, so [setIcon] is never called with an undefined path. *)
Theorem stored_icon_defined (w0 w : world) (pool : list prog) (s : string) :
  keys_http (storage w0) -> sys_steps (w0, []) (w, pool) ->
  is_Some (ICON_PATHS (stored_mode w s)).
Proof.
  intros Hk Hs. destruct (stored_mode_reachable w0 w pool s Hk Hs) as [m ->].
  destruct m; eexists; reflexivity.
Qed.

(** C19. The "loading" paint has no http guard, but in every reachable
    state nothing is stored for a site key that does not start with
    "http": a "loading" event on such a page paints the "off" icon. *)
Theorem loading_non_http_paints_off (w0 w1 w : world) (pool : list prog) (tabId : nat)
    (t : tab) (page : string) (u : URL) :
  keys_http (storage w0) -> sys_steps (w0, []) (w1, pool) ->
  truthy_url (tab_url t) = Some page -> new_URL page = Some u ->
  startsWith (siteUrl_of u) "http" = false ->
  steps (start w1 (onUpdated tabId (ChangeInfo (Some "loading")) t)) (w, []) ->
  icons w !! tabId = ICON_PATHS "off".
Proof.
  intros Hk Hsys Ht Hu Hn Hs. destruct (loading_paint w1 w tabId t page u Ht Hu Hs) as (_ & _ & ->).
  assert (stored_mode w1 (siteUrl_of u) = "off") as ->.
  { unfold stored_mode. destruct (storage w1 !! siteUrl_of u) eqn:E; [|done].
    by rewrite (proj1 (sys_keys_http w0 w1 pool Hk Hsys _ _ E)) in Hn. }
  simpl. by rewrite lookup_insert_eq.
Qed.

(** C29. Overlapping passes converge: when a page completes while other
    reconciliation passes are in flight, all consistent with the present
    cookies (no popup transaction pending), every execution that finishes
    them all stores, for the page's site, the mode its cookies say: no
    older pass overwrites the newer one with a different mode. *)
Theorem overlapping_passes_converge (w1 w : world) (pool : list prog) (tabId : nat) (t : tab)
    (page : string) (u : URL) :
  Forall (Reconciliation.refresh_req w1) pool ->
  truthy_url (tab_url t) = Some page -> startsWith page "http" = true -> new_URL page = Some u ->
  steps (w1, pool ++ (start w1 (onUpdated tabId (ChangeInfo (Some "complete")) t)).2) (w, []) ->
  stored_mode w (siteUrl_of u) = mode_str (cookie_mode w1 (siteUrl_of u)).
Proof.
  intros HF Ht Hp Hu Hs.
  rewrite (onUpdated_complete_start w1 tabId t page u Ht Hu) in Hs.
  pose proof (Reconciliation.refreshIcon_start_reqs w1 tabId page) as Hnew.
  rewrite (Reconciliation.refreshIcon_start w1 tabId page u Hp Hu) in Hs, Hnew. simpl in Hnew.
  eapply (Reconciliation.healing_done w1 (siteUrl_of u)); [|exact Hs].
  split_and!; [by apply Forall_app|done|done|].
  left. simpl. apply Exists_app. right. apply Exists_cons. right.
  apply Exists_cons. left. apply Reconciliation.pd_profile.
Qed.

End Extension.

Module InterplayScenarios.
Import System Background Reconciliation Router Extension.

Definition race_page : string := "http://a.test/index.php".
Definition race_site : string := "http://a.test".
Definition race_url : URL := MkURL "http:" "a.test" "a.test".
Definition race_tab : tab := Tab 1 (Some race_page) true 0.

(** One http tab, nothing stored, no cookies. *)
Definition w_race : world := World ∅ ∅ ∅ [race_tab] 0 [].

(** The page finishes loading; its pass paints the stored "off" and reads
    both cookies (none: "off"); the user then clicks "debug" and the whole
    transaction runs, reload included; only then does the pass read the
    stored mode, now "debug", compare it with the "off" it observed and
    write and paint "off". *)
Definition race_plan : list action :=
  [Deliver (TabUpdated 1 (ChangeInfo (Some "complete")) race_tab); Resolve 0; Resolve 1;
   Resolve 0; Resolve 0;
   Deliver (PopupClick "debug"); Resolve 1; Resolve 1; Resolve 1; Resolve 1; Resolve 1;
   Resolve 1; Resolve 1; Resolve 0; Resolve 0; Resolve 0].

(** The state the race leaves. *)
Definition w_raced : world :=
  match sys_run race_plan (w_race, []) with Some c => c.1 | None => w_race end.

Lemma race_run : sys_run race_plan (w_race, []) = Some (w_raced, []).
Proof. vm_compute. reflexivity. Qed.

(** C20. A reconciliation pass that has read the cookies before the user
    picks "debug" in the popup overwrites the choice: there is an
    interleaving of the two scripts, every request resolved, in which the
    tab was reloaded once and the debug marker is set but the stored mode,
    and the icon with it, say "off". *)
Theorem popup_races_reconciliation :
  exists w, sys_steps (w_race, []) (w, []) /\ reloads w = 1 /\
    cookie_mode w race_site = Debug /\ stored_mode w race_site = mode_str Off /\
    icons w !! 1 = ICON_PATHS "off".
Proof.
  exists w_raced. split; [exact (sys_run_steps _ _ _ race_run)|].
  vm_compute. split_and!; reflexivity.
Qed.

Definition tab_chrome : tab := Tab 2 (Some "chrome://extensions/") true 0.
Definition w_chrome : world := World ∅ ∅ ∅ [tab_chrome] 0 [].

Lemma keys_http_empty : keys_http ∅.
Proof. intros k v H. by rewrite lookup_empty in H. Qed.

Lemma storage_keys_http_witness :
  storage w_raced !! race_site = Some "off" /\ startsWith race_site "http" = true.
Proof.
  split; [vm_compute; reflexivity|].
  apply (storage_keys_http w_race w_raced [] race_site "off").
  - exact keys_http_empty.
  - exact (sys_run_steps _ _ _ race_run).
  - vm_compute. reflexivity.
Defined.

Lemma storage_values_modes_witness :
  storage w_raced !! race_site = Some "off" /\ is_mode_str "off" = true.
Proof.
  split; [vm_compute; reflexivity|].
  apply (storage_values_modes w_race w_raced [] race_site "off").
  - exact keys_http_empty.
  - exact (sys_run_steps _ _ _ race_run).
  - vm_compute. reflexivity.
Defined.

Lemma stored_icon_defined_witness : is_Some (ICON_PATHS (stored_mode w_raced "chrome://extensions")).
Proof.
  apply (stored_icon_defined w_race w_raced []).
  - exact keys_http_empty.
  - exact (sys_run_steps _ _ _ race_run).
Defined.

Lemma overlapping_passes_converge_witness :
  stored_mode (run 16 (w_race, (start w_race (refreshIcon 1 race_page)).2 ++
                 (start w_race (onUpdated 1 (ChangeInfo (Some "complete")) race_tab)).2)).1 race_site =
    mode_str Off.
Proof.
  apply (overlapping_passes_converge w_race _ (start w_race (refreshIcon 1 race_page)).2 1 race_tab
           race_page race_url);
    [apply Reconciliation.refreshIcon_start_reqs|reflexivity..|].
  match goal with |- steps ?c _ =>
    assert (E : run 16 c = ((run 16 c).1, [])) by (vm_compute; reflexivity) end.
  rewrite <- E. apply run_steps.
Defined.

Lemma loading_non_http_paints_off_witness :
  icons (run 2 (start w_chrome (onUpdated 2 (ChangeInfo (Some "loading")) tab_chrome))).1 !! 2 =
    ICON_PATHS "off".
Proof.
  apply (loading_non_http_paints_off w_chrome w_chrome _ [] 2 tab_chrome "chrome://extensions/"
           (MkURL "chrome:" "extensions" "extensions")).
  - exact keys_http_empty.
  - apply rtc_refl.
  - reflexivity.
  - reflexivity.
  - reflexivity.
  - assert (E : run 2 (start w_chrome (onUpdated 2 (ChangeInfo (Some "loading")) tab_chrome)) =
                ((run 2 (start w_chrome (onUpdated 2 (ChangeInfo (Some "loading")) tab_chrome))).1, []))
      by (vm_compute; reflexivity).
    rewrite <- E. apply run_steps.
Defined.

End InterplayScenarios.
