(* ===== verification/Wiring.v ===== *)
(** * The popup's button wiring

    [src/popup.js] lines 24-28 run once, when the popup's document loads:

    [["off", "debug", "profile"].forEach((mode) => {
       document.getElementById(mode)
               .addEventListener("click", () => applyMode(mode));
     });]

    The document is modelled as a map from element ids to elements, each
    holding its click listeners in registration order; [getElementById]
    is a lookup, [null] when the id is absent, and calling
    [addEventListener] on [null] throws a [TypeError] that leaves
    [forEach] and the rest of the script.  A click runs the element's
    listeners in order; each runs the synchronous part of its code, so a
    click issues the requests of every listener, in order.

    The theorems: on a document that has the three buttons, the wiring
    succeeds and a click issues exactly the requests of the handler the
    system model dispatches ([System.dispatch (PopupClick id)]), so the
    abstraction [Popup.onClick] used there is refined by the wiring of the
    code ([wireButtons_refines]); when a button is missing, the wiring
    throws there, the buttons before it work and the ones after it are
    dead ([wireButtons_missing]). *)

From S2P Require Import Prelude Mode Url Browser Popup Interplay.

Module Wiring.

Record element := Element { listeners : list prog }.

(** The popup's document: element ids to elements. *)
Abbreviation document := (gmap string element).

(** [el.addEventListener("click", listener)] *)
Definition addEventListener (el : element) (listener : prog) : element :=
  Element (listeners el ++ [listener]).

(** [modes.forEach((mode) => document.getElementById(mode).addEventListener(...))]:
    the document it leaves, and the error that escapes it. *)
Fixpoint wire (doc : document) (modes : list string) : document * option js_error :=
  match modes with
  | [] => (doc, None)
  | mode :: rest =>
      match doc !! mode with
      | None => (doc, Some TypeError)
      | Some el => wire (<[mode := addEventListener el (Popup.applyMode mode)]> doc) rest
      end
  end.

Definition wireButtons (doc : document) : document * option js_error :=
  wire doc ["off"; "debug"; "profile"].

(** Dispatching a click on the element with id [id]: its listeners, in
    registration order. *)
Definition click (doc : document) (id : string) : prog :=
  match doc !! id with
  | Some el => foldr Par Done (listeners el)
  | None => Done
  end.

(** A document in which no element has a click listener yet. *)
Definition fresh (doc : document) : Prop := forall id el, doc !! id = Some el -> listeners el = [].

Lemma start_par_done (w : world) (p : prog) : start w (Par p Done) = start w p.
Proof. unfold start. simpl. destruct (issue w p). by rewrite app_nil_r. Qed.

Lemma click_fresh (doc : document) (id : string) : fresh doc -> click doc id = Done.
Proof. unfold click. intros Hf. destruct (doc !! id) as [el|] eqn:E; [by rewrite (Hf id el E)|done]. Qed.

Lemma wire_cons_some (doc : document) (mode : string) (rest : list string) (el : element) :
  doc !! mode = Some el ->
  wire doc (mode :: rest) = wire (<[mode := addEventListener el (Popup.applyMode mode)]> doc) rest.
Proof. intros H. cbn [wire]. by rewrite H. Qed.

Lemma wire_cons_none (doc : document) (mode : string) (rest : list string) :
  doc !! mode = None -> wire doc (mode :: rest) = (doc, Some TypeError).
Proof. intros H. cbn [wire]. by rewrite H. Qed.

Lemma click_added (doc : document) (w : world) (mode : string) (el : element) (p : prog) :
  fresh doc -> doc !! mode = Some el -> start w (foldr Par Done (listeners (addEventListener el p))) = start w p.
Proof. intros Hf H. unfold addEventListener. simpl. rewrite (Hf _ _ H). apply start_par_done. Qed.

Lemma dispatch_click (id : string) :
  System.dispatch (System.PopupClick id) = if bool_decide (id ∈ Popup.buttons) then Popup.applyMode id else Done.
Proof. simpl. unfold Popup.onClick. by case_bool_decide. Qed.

(** What the wiring leaves on a document with the three buttons. *)
Lemma wireButtons_ok (doc : document) (e0 e1 e2 : element) :
  doc !! "off" = Some e0 -> doc !! "debug" = Some e1 -> doc !! "profile" = Some e2 ->
  wireButtons doc =
    (<["profile" := addEventListener e2 (Popup.applyMode "profile")]>
      (<["debug" := addEventListener e1 (Popup.applyMode "debug")]>
        (<["off" := addEventListener e0 (Popup.applyMode "off")]> doc)), None).
Proof.
  intros H0 H1 H2. unfold wireButtons. rewrite (wire_cons_some _ _ _ e0) by done.
  rewrite (wire_cons_some _ _ _ e1) by (by rewrite lookup_insert_ne).
  rewrite (wire_cons_some _ _ _ e2) by (by rewrite !lookup_insert_ne). reflexivity.
Qed.

(** C26. The wiring refines the click handler of the system model: on a
    document that has the three buttons and no listener yet, the wiring
    raises nothing, and a click on any element issues, in any browser
    state, exactly the requests [System.dispatch (PopupClick id)] issues:
    [applyMode id] for a button, nothing for any other element. *)
Theorem wireButtons_refines (doc : document) (w : world) (id : string) (e0 e1 e2 : element) :
  fresh doc -> doc !! "off" = Some e0 -> doc !! "debug" = Some e1 -> doc !! "profile" = Some e2 ->
  (wireButtons doc).2 = None /\
  start w (click (wireButtons doc).1 id) = start w (System.dispatch (System.PopupClick id)).
Proof.
  intros Hf H0 H1 H2. rewrite (wireButtons_ok doc e0 e1 e2 H0 H1 H2). split; [done|].
  simpl fst. rewrite dispatch_click. unfold click.
  destruct (decide (id = "profile")) as [->|N2].
  { rewrite lookup_insert_eq, bool_decide_true by (unfold Popup.buttons; set_solver).
    exact (click_added doc w "profile" e2 _ Hf H2). }
  rewrite lookup_insert_ne by congruence.
  destruct (decide (id = "debug")) as [->|N1].
  { rewrite lookup_insert_eq, bool_decide_true by (unfold Popup.buttons; set_solver).
    exact (click_added doc w "debug" e1 _ Hf H1). }
  rewrite lookup_insert_ne by congruence.
  destruct (decide (id = "off")) as [->|N0].
  { rewrite lookup_insert_eq, bool_decide_true by (unfold Popup.buttons; set_solver).
    exact (click_added doc w "off" e0 _ Hf H0). }
  rewrite lookup_insert_ne by congruence. rewrite bool_decide_false.
  - fold (click doc id). by rewrite click_fresh.
  - unfold Popup.buttons. rewrite !elem_of_cons, elem_of_nil. naive_solver.
Qed.

(** C27. A missing button breaks the rest of the wiring: when the
    "debug" button is absent, [getElementById] returns [null], the call on
    it throws a [TypeError] out of the script, "off" is wired and
    "profile" is left without a listener. *)
Theorem wireButtons_missing (doc : document) (w : world) (e0 : element) :
  fresh doc -> doc !! "off" = Some e0 -> doc !! "debug" = None ->
  (wireButtons doc).2 = Some TypeError /\
  start w (click (wireButtons doc).1 "off") = start w (Popup.applyMode "off") /\
  click (wireButtons doc).1 "profile" = Done.
Proof.
  intros Hf H0 H1. unfold wireButtons. rewrite (wire_cons_some _ _ _ e0) by done.
  rewrite wire_cons_none by (by rewrite lookup_insert_ne). simpl. split_and!; [done| |].
  - unfold click. rewrite lookup_insert_eq. exact (click_added doc w "off" e0 _ Hf H0).
  - unfold click. rewrite lookup_insert_ne by done. fold (click doc "profile"). by apply click_fresh.
Qed.

End Wiring.

Module WiringScenarios.
Import Wiring.

(** The popup's document: the three buttons, nothing registered. *)
Definition popup_doc : document :=
  <["off" := Element []]> (<["debug" := Element []]> (<["profile" := Element []]> ∅)).

Lemma fresh_popup_doc : fresh popup_doc.
Proof.
  intros id el H. unfold popup_doc in H.
  repeat (rewrite lookup_insert_Some in H; destruct H as [[_ <-]|[_ H]]; [done|]).
  by rewrite lookup_empty in H.
Qed.

Lemma wireButtons_refines_witness :
  start (World ∅ ∅ ∅ [] 0 []) (click (wireButtons popup_doc).1 "debug") =
    start (World ∅ ∅ ∅ [] 0 []) (Popup.applyMode "debug").
Proof.
  apply (wireButtons_refines popup_doc (World ∅ ∅ ∅ [] 0 []) "debug" (Element []) (Element []) (Element []));
    [exact fresh_popup_doc|reflexivity..].
Defined.

Lemma wireButtons_missing_witness :
  (wireButtons (delete "debug" popup_doc)).2 = Some TypeError.
Proof.
  apply (wireButtons_missing (delete "debug" popup_doc) (World ∅ ∅ ∅ [] 0 []) (Element [])).
  - intros id el H. apply lookup_delete_Some in H as [_ H]. exact (fresh_popup_doc id el H).
  - reflexivity.
  - reflexivity.
Defined.

End WiringScenarios.
