(* ===== verification/Termination.v ===== *)
(** * Termination and step bounds

    The code has no loops, but its callbacks issue further requests, and
    the browser resolves them in any order.  This file gives every request
    a measure, [Measure.fin n r]: however the browser answers, resolving
    [r] and everything its callbacks issue takes at most [n] resolutions;
    [fins n pool] sums the measures of a pool.  Each [step] strictly
    decreases the measure of the pool ([step_fins]), so every execution is
    finite ([fins_sn], with stdpp's [sn]), its length is bounded by the
    measure ([nsteps_bound]) and the first-come, first-served run with that
    much fuel empties the pool ([run_drains]).

    [Bounds] computes the measures of the code: a reconciliation pass and
    a popup transaction resolve at most seven requests ([fin_applyMode]),
    a listener at most eight ([dispatch_fins]).  [Finite] draws the
    consequences: a pass terminates under every interleaving with at most
    seven resolutions ([refreshIcon_terminates]), and along any plan of
    events and resolutions from an idle browser the resolutions made and
    still possible number at most eight per event delivered
    ([extension_work_bounded]). *)

From S2P Require Import Prelude Mode Url Browser Background Popup Router Interplay.

Module Measure.

(** [fin n r]: in every world, resolving [r] issues requests whose
    measures sum to less than [n]. *)
Inductive fin : nat -> prog -> Prop :=
| fin_req n r : (forall w, exists m, m <= n /\ fins m (resolve w r).2) -> fin (S n) r
with fins : nat -> list prog -> Prop :=
| fins_nil : fins 0 []
| fins_cons a b r l : fin a r -> fins b l -> fins (a + b) (r :: l).

Create HintDb xdq_fin.

Lemma fins_le_intro (n m : nat) (l : list prog) :
  fins m l -> m <= n -> exists m', m' <= n /\ fins m' l.
Proof. eauto. Qed.

Lemma fins_app (a b : nat) (l1 l2 : list prog) :
  fins a l1 -> fins b l2 -> fins (a + b) (l1 ++ l2).
Proof.
  intros H1 H2. induction H1 as [|a' b' r l Hr Hl IH]; simpl; [done|].
  rewrite <- Nat.add_assoc. by constructor.
Qed.

Lemma fins_zero (l : list prog) : fins 0 l -> l = [].
Proof. inversion 1 as [|a b r l' Hr]; [done|]. inversion Hr; lia. Qed.

Lemma fins_lookup (n i : nat) (l : list prog) (r : prog) :
  fins n l -> l !! i = Some r -> exists a b, fin a r /\ fins b (delete i l) /\ n = a + b.
Proof.
  intros H. revert i. induction H as [|a b r' l Hr Hl IH]; intros i Hi; [done|].
  destruct i as [|i]; simpl in Hi.
  - injection Hi as <-. by exists a, b.
  - destruct (IH i Hi) as (a' & b' & Ha & Hb & ->).
    exists a', (a + b'). split_and!; [done|by constructor|lia].
Qed.

Lemma fin_resolve (a : nat) (r : prog) (w : world) :
  fin a r -> exists m, m < a /\ fins m (resolve w r).2.
Proof. inversion 1 as [n r' H']. destruct (H' w) as (m & ? & ?). exists m. split; [lia|done]. Qed.

(** One resolution strictly decreases the measure of the pool. *)
Lemma step_fins (n : nat) (c c' : config) :
  step c c' -> fins n c.2 -> exists m, m < n /\ fins m c'.2.
Proof.
  intros [i [w l] c'' Hf] Hn. simpl in *.
  destruct (l !! i) as [r|] eqn:Hi; [|discriminate].
  destruct (fins_lookup n i l r Hn Hi) as (a & b & Ha & Hb & ->).
  destruct (fin_resolve a r w Ha) as (m & Hm & Hk).
  destruct (resolve w r) as [w' ks]. injection Hf as <-. simpl in *.
  exists (b + m). split; [lia|]. by apply fins_app.
Qed.

Lemma steps_fins (n : nat) (c c' : config) :
  steps c c' -> fins n c.2 -> exists m, m <= n /\ fins m c'.2.
Proof.
  intros Hs. revert n. induction Hs as [c|c1 c2 c3 H12 H23 IH]; intros n Hn; [by exists n|].
  destruct (step_fins n c1 c2 H12 Hn) as (m & Hm & Hm').
  destruct (IH m Hm') as (k & ? & ?). exists k. split; [lia|done].
Qed.

(** The measure bounds the length of every execution. *)
Lemma nsteps_bound (k n : nat) (c c' : config) :
  nsteps step k c c' -> fins n c.2 -> k <= n.
Proof.
  intros Hs. revert n. induction Hs as [c|k c1 c2 c3 H12 H23 IH]; intros n Hn; [lia|].
  destruct (step_fins n c1 c2 H12 Hn) as (m & Hm & Hm'). specialize (IH m Hm'). lia.
Qed.

(** Every execution is finite. *)
Lemma fins_sn (n : nat) (c : config) : fins n c.2 -> sn step c.
Proof.
  revert c. induction n as [n IH] using lt_wf_ind. intros c Hn. constructor. intros c' Hs.
  destruct (step_fins n c c' Hs Hn) as (m & Hm & Hm'). exact (IH m Hm c' Hm').
Qed.

(** A configuration is final exactly when nothing is pending. *)
Lemma nf_step_nil (c : config) : nf step c <-> c.2 = [].
Proof.
  destruct c as [w l]. split; simpl.
  - intros Hnf. destruct l as [|r l]; [done|]. exfalso. apply Hnf.
    unfold red. destruct (resolve w r) as [w' ks] eqn:E.
    exists (w', l ++ ks). apply (step_fire 0). simpl. by rewrite E.
  - intros -> [c' Hs]. inversion Hs as [i c1 c2 Hf]. simpl in Hf. by destruct i.
Qed.

(** First come, first served, with as much fuel as the measure, empties
    the pool. *)
Lemma run_drains (fuel n : nat) (c : config) : fins n c.2 -> n <= fuel -> (run fuel c).2 = [].
Proof.
  revert n c. induction fuel as [|fuel IH]; intros n [w l] Hn Hle; cbn [run].
  - apply fins_zero. by replace n with 0 in Hn by lia.
  - destruct (fire_at 0 (w, l)) as [c'|] eqn:E.
    + destruct (step_fins n _ c' (step_fire 0 _ _ E) Hn) as (m & ? & ?).
      apply (IH m); [done|lia].
    + destruct l as [|r l]; [done|]. simpl in E. by destruct (resolve w r).
Qed.

(** The three conclusions for a configuration of measure at most [n]. *)
Definition bounded (n : nat) (c : config) : Prop :=
  sn step c /\ (forall k c', nsteps step k c c' -> k <= n) /\
  (forall c', steps c c' -> (run n c').2 = []).

Lemma fins_bounded (n m : nat) (c : config) : fins m c.2 -> m <= n -> bounded n c.
Proof.
  intros Hm Hle. split_and!; [exact (fins_sn m c Hm)|..].
  - intros k c' Hs. pose proof (nsteps_bound k m c c' Hs Hm). lia.
  - intros c' Hs. destruct (steps_fins m c c' Hs Hm) as (m' & ? & ?).
    apply (run_drains n m'); [done|lia].
Qed.

End Measure.

Module Bounds.
Import Measure.

(** Prove [fin n r] by resolving [r] in an arbitrary world, splitting on
    the tests its callback makes, and summing the measures of what it
    issues. *)
Ltac fins_tac :=
  repeat (apply fins_nil || (eapply fins_cons; [solve [eauto with xdq_fin]|])).
Ltac fins_close :=
  repeat case_match; simplify_eq/=; (eapply fins_le_intro; [fins_tac|lia]).
Ltac fin_tac := constructor; intros ?w; unfold resolve; cbn; fins_close.

Section Background.
Import Background.

Lemma fin_setIcon (tabId : nat) (p : option icon_paths) : fin 1 (SetIcon tabId p Done).
Proof. fin_tac. Qed.

Lemma fin_storageSet (key v : string) : fin 1 (StorageSet key v Done).
Proof. fin_tac. Qed.

#[local] Hint Resolve fin_setIcon fin_storageSet : xdq_fin.

Lemma fin_stored (tabId : nat) (s : string) : fin 2 (getModeForSite s (setStoredIcon tabId)).
Proof. fin_tac. Qed.

Lemma fin_recheck (tabId : nat) (s a : string) : fin 3 (getModeForSite s (correctIcon tabId s a)).
Proof. unfold correctIcon. fin_tac. Qed.

#[local] Hint Resolve fin_stored fin_recheck : xdq_fin.

Lemma fin_session (tabId : nat) (s : string) :
  fin 4 (CookieGet s "XDEBUG_SESSION" (checkDebugCookie (recheck tabId s))).
Proof. unfold checkDebugCookie, recheck. fin_tac. Qed.

#[local] Hint Resolve fin_session : xdq_fin.

Lemma fin_detect (tabId : nat) (s : string) : fin 5 (detectCookieMode s (recheck tabId s)).
Proof. unfold detectCookieMode. fin_tac. Qed.

#[local] Hint Resolve fin_detect : xdq_fin.

(** What a pass issues weighs at most seven. *)
Lemma refreshIcon_fins (w : world) (tabId : nat) (pageUrl : string) :
  exists m, m <= 7 /\ fins m (start w (refreshIcon tabId pageUrl)).2.
Proof. unfold start, refreshIcon. cbn. fins_close. Qed.

Lemma fin_onActivated (tabId : nat) : fin 8 (onActivated tabId).
Proof.
  constructor. intros w. unfold resolve, onActivated. cbn.
  repeat case_match; try (eapply fins_le_intro; [fins_tac|lia]). apply refreshIcon_fins.
Qed.

(** The "loading" paint, its [getModeForSite] unfolded. *)
Lemma fin_loading_paint (tabId : nat) (s : string) :
  fin 2 (StorageGet s (fun item => SetIcon tabId (ICON_PATHS (item || "off")%xdq) Done)).
Proof. fin_tac. Qed.

#[local] Hint Resolve fin_loading_paint : xdq_fin.

Lemma onUpdated_fins (w : world) (tabId : nat) (ci : change_info) (t : tab) :
  exists m, m <= 7 /\ fins m (start w (onUpdated tabId ci t)).2.
Proof.
  unfold start, onUpdated. destruct (truthy_url _) as [url|]; [|cbn; fins_close].
  destruct (new_URL url) as [u|]; [|cbn; fins_close]. cbn.
  destruct (bool_decide (status ci = Some "loading")) eqn:El.
  - apply bool_decide_eq_true in El. rewrite bool_decide_false by (rewrite El; discriminate).
    cbn. eapply fins_le_intro; [fins_tac|lia].
  - destruct (bool_decide (status ci = Some "complete")); [|cbn; fins_close].
    cbn. destruct (refreshIcon_fins w tabId url) as (m & ? & Hm). unfold start in Hm.
    destruct (issue w (refreshIcon tabId url)). simpl in *. exists m. split; [lia|exact Hm].
Qed.

End Background.

Section Popup.
Import Popup.

Lemma fin_cookieSet (url name v : string) : fin 1 (CookieSet url name v Done).
Proof. fin_tac. Qed.

Lemma fin_cookieRemove (url name : string) : fin 1 (CookieRemove url name Done).
Proof. fin_tac. Qed.

Lemma fin_reload (tabId : nat) : fin 1 (Reload tabId Done).
Proof. fin_tac. Qed.

#[local] Hint Resolve fin_cookieSet fin_cookieRemove fin_reload : xdq_fin.

Lemma fin_persist (tabId : nat) (s m : string) :
  fin 2 (StorageSet s m (Par (Reload tabId Done) (WindowClose Done))).
Proof. fin_tac. Qed.

#[local] Hint Resolve fin_persist : xdq_fin.

(** [updateAndReload], unfolded. *)
Lemma fin_updateAndReload (tabId : nat) (p : option icon_paths) (s m : string) :
  fin 3 (SetIcon tabId p (StorageSet s m (Par (Reload tabId Done) (WindowClose Done)))).
Proof. fin_tac. Qed.

#[local] Hint Resolve fin_updateAndReload : xdq_fin.

Lemma fin_applyMode (m : string) : fin 7 (applyMode m).
Proof. unfold applyMode, applyToTabs, forEach, setSelectedCookie. fin_tac. Qed.

End Popup.

#[local] Hint Resolve fin_applyMode fin_onActivated : xdq_fin.

Lemma dispatch_fins (w : world) (e : System.event) :
  exists m, m <= 8 /\ fins m (start w (System.dispatch e)).2.
Proof.
  destruct e as [tabId|tabId ci t|id]; cbn [System.dispatch].
  - exists (8 + 0). split; [lia|]. apply fins_cons; [apply fin_onActivated|constructor].
  - destruct (onUpdated_fins w tabId ci t) as (m & ? & ?). exists m. split; [lia|done].
  - unfold Popup.onClick. case_decide.
    + exists (7 + 0). split; [lia|]. apply fins_cons; [apply fin_applyMode|constructor].
    + exists 0. split; [lia|]. constructor.
Qed.

End Bounds.

Module Finite.
Import Measure Bounds Background System.

Lemma bounded_intro (n : nat) (c : config) : (exists m, m <= n /\ fins m c.2) -> bounded n c.
Proof. intros (m & Hle & Hm). exact (fins_bounded n m c Hm Hle). Qed.

Lemma refreshIcon_bounded (w0 : world) (tabId : nat) (pageUrl : string) :
  bounded 7 (start w0 (refreshIcon tabId pageUrl)).
Proof. apply bounded_intro, refreshIcon_fins. Qed.

(** C21. A reconciliation pass terminates under every interleaving: no
    infinite execution starts from it, and every execution resolves at
    most seven requests. *)
Theorem refreshIcon_terminates (w0 : world) (tabId : nat) (pageUrl : string) :
  sn step (start w0 (refreshIcon tabId pageUrl)) /\
  forall k c, nsteps step k (start w0 (refreshIcon tabId pageUrl)) c -> k <= 7.
Proof. destruct (refreshIcon_bounded w0 tabId pageUrl) as (? & ? & _). by split. Qed.

(** The events and the resolutions a plan of the system makes. *)
Definition events (plan : list action) : nat :=
  List.length (List.filter (fun a => match a with Deliver _ => true | Resolve _ => false end) plan).
Definition resolutions (plan : list action) : nat :=
  List.length (List.filter (fun a => match a with Deliver _ => false | Resolve _ => true end) plan).

(** Along a plan, each event adds at most eight to the measure of the
    pool and each resolution removes at least one. *)
Lemma sys_run_fins (plan : list action) (c c' : config) (n : nat) :
  sys_run plan c = Some c' -> fins n c.2 ->
  exists m, fins m c'.2 /\ m + resolutions plan <= n + 8 * events plan.
Proof.
  revert c n. induction plan as [|a rest IH]; intros c n Hr Hn; simpl in Hr.
  - injection Hr as <-. exists n. simpl. split; [done|]. unfold resolutions. simpl. lia.
  - destruct (sys_fire a c) as [c1|] eqn:E; [|discriminate].
    destruct a as [e|i]; simpl in E.
    + injection E as <-. destruct (dispatch_fins c.1 e) as (k & Hk & Hf).
      destruct (IH _ (n + k) Hr) as (m & Hm & Hle); [by apply fins_app|].
      exists m. unfold events, resolutions in *. simpl. split; [done|lia].
    + destruct (step_fins n c c1 (step_fire i c c1 E) Hn) as (k & Hk & Hf).
      destruct (IH _ k Hr Hf) as (m & Hm & Hle).
      exists m. unfold events, resolutions in *. simpl. split; [done|lia].
Qed.

(** C28. The work of the extension is linear in the events it receives:
    after any plan of events and resolutions from an idle browser, the
    resolutions the plan made plus those of any execution that follows
    number at most eight per event delivered. *)
Theorem extension_work_bounded (w0 : world) (plan : list action) (c c' : config) (k : nat) :
  sys_run plan (w0, []) = Some c -> nsteps step k c c' ->
  resolutions plan + k <= 8 * events plan.
Proof.
  intros Hr Hs. destruct (sys_run_fins plan _ c 0 Hr fins_nil) as (m & Hm & Hle).
  pose proof (nsteps_bound k m c c' Hs Hm). lia.
Qed.

End Finite.

Module FiniteScenarios.
Import Background System InterplayScenarios Finite.

Lemma extension_work_bounded_witness :
  resolutions race_plan + 0 <= 8 * events race_plan.
Proof. exact (extension_work_bounded w_race race_plan _ _ 0 race_run (nsteps_O _ _)). Defined.

End FiniteScenarios.
